(** * my_utils_delta_table: the Delta-table and object-storage facades

    A shallow embedding of [src/my_utils_delta_table/delta.py] and
    [src/my_utils_delta_table/s3.py].

    Both modules are glue over external libraries (deltalake, polars,
    pyarrow, boto3).  The embedding keeps the facades as they are written
    and takes the libraries as a parameter: a [Library] is any
    implementation of the entry points the facades call, acting on an
    abstract external world.  A facade is a program in a small
    state-and-exception monad whose state carries the world, the records
    emitted through the module logger and the trace of library calls made,
    each with the exception it raised, if any. *)

From Stdlib Require Import ZArith String Ascii List DecimalString Lia.
From stdpp Require Import base option list strings gmap.

Set Warnings "-register-all".

Local Open Scope string_scope.
Local Open Scope list_scope.
Local Open Scope stdpp_scope.

(** ** Python values *)

(** The values a caller can hand to the facades in place of a table, and
    the shape of the SDK's responses.  A [PyDict] is an association list
    with string keys, looked up from the front. *)
Inductive pyval : Type :=
| PyNone
| PyBool (b : bool)
| PyInt (z : Z)
| PyStr (s : string)
| PyList (items : list pyval)
| PyDict (entries : list (string * pyval)).

Definition pydict : Type := list (string * pyval).

Fixpoint dict_lookup {V : Type} (k : string) (d : list (string * V)) : option V :=
  match d with
  | [] => None
  | (k', v) :: d' => if String.eqb k' k then Some v else dict_lookup k d'
  end.

(** [d.get(k, default)] *)
Definition dict_get (d : pydict) (k : string) (default : pyval) : pyval :=
  match dict_lookup k d with
  | Some v => v
  | None => default
  end.

(** ** Exceptions *)

(** An exception is known by its class, the classes it inherits from and
    its text [str(e)]. *)
Record exn : Type := mk_exn {
  exn_class : string;
  exn_bases : list string;
  exn_text : string
}.

Definition isinstance (e : exn) (cls : string) : bool :=
  String.eqb (exn_class e) cls || existsb (String.eqb cls) (exn_bases e).

Definition isinstance_any (e : exn) (classes : list string) : bool :=
  existsb (isinstance e) classes.
Arguments isinstance_any : simpl never.

Definition ValueError (text : string) : exn :=
  mk_exn "ValueError" ["Exception"; "BaseException"] text.

Definition TypeError (text : string) : exn :=
  mk_exn "TypeError" ["Exception"; "BaseException"] text.

(** [str(KeyError(k))] is the repr of the key. *)
Definition KeyError (key : string) : exn :=
  mk_exn "KeyError" ["LookupError"; "Exception"; "BaseException"]
         ("'" +:+ key +:+ "'").

Inductive result (A : Type) : Type :=
| Ok (a : A)
| Raise (e : exn).
Arguments Ok {A} a.
Arguments Raise {A} e.

Definition failure_of {A : Type} (r : result A) : option exn :=
  match r with
  | Ok _ => None
  | Raise e => Some e
  end.

(** ** Tables *)

Inductive cell : Type :=
| CNull
| CInt (z : Z)
| CStr (s : string).

Definition row : Type := list cell.

(** [pa.Table] *)
Record arrow_table : Type := mk_arrow {
  at_columns : list string;
  at_rows : list row
}.

(** [pl.DataFrame] *)
Record polars_df : Type := mk_df {
  df_columns : list string;
  df_rows : list row
}.

(** Tables are kept by their content: the column names and the cells of
    the rows.  The column types stay outside the value; where they
    matter, a statement names them and asks the rows to fit them.  The
    types covered are the 64-bit signed integers and the strings, both
    nullable. *)
Inductive dtype : Type := Int64 | Utf8.

Definition in_int64 (z : Z) : bool :=
  ((-9223372036854775808 <=? z) && (z <=? 9223372036854775807))%Z.

Definition cell_fits (d : dtype) (c : cell) : bool :=
  match c, d with
  | CNull, _ => true
  | CInt z, Int64 => in_int64 z
  | CStr _, Utf8 => true
  | _, _ => false
  end.

Fixpoint row_fits (types : list dtype) (r : row) : bool :=
  match types, r with
  | [], [] => true
  | d :: types', c :: r' => cell_fits d c && row_fits types' r'
  | _, _ => false
  end.

(** Every row has one cell per column, of the type of the column. *)
Definition rows_fit (types : list dtype) (rows : list row) : bool :=
  forallb (row_fits types) rows.

(** SQL equality of two cells: a comparison with null is not true. *)
Definition sql_eq (a b : cell) : bool :=
  match a, b with
  | CInt x, CInt y => Z.eqb x y
  | CStr x, CStr y => String.eqb x y
  | _, _ => false
  end.

(** The [table] argument of [write_table_to_deltalake] is untyped: the
    function tells the three cases apart with [isinstance]. *)
Inductive table_arg : Type :=
| ArrowTable (t : arrow_table)
| PolarsDataFrame (df : polars_df)
| OtherObject (v : pyval).

(** What [read_table_in_deltalake] returns. *)
Inductive read_result : Type :=
| AsArrow (t : arrow_table)
| AsPolars (df : polars_df).

Definition storage_options : Type := option (list (string * string)).

(** The [delta_merge_options] dictionary handed to [write_delta]. *)
Record merge_options : Type := mk_merge_options {
  predicate : string;
  source_alias : string;
  target_alias : string
}.

(** JSON documents, as [json.loads] yields them. *)
Inductive json : Type :=
| JNull
| JBool (b : bool)
| JNum (z : Z)
| JStr (s : string)
| JArr (items : list json)
| JObj (members : list (string * json)).

(** ** Logging *)

Inductive level : Type := DEBUG | INFO | WARNING | ERROR.

Record log_record : Type := mk_log {
  log_level : level;
  log_message : string
}.

Definition is_error (r : log_record) : bool :=
  match log_level r with
  | ERROR => true
  | _ => false
  end.

Definition error_records (l : list log_record) : list log_record :=
  List.filter is_error l.

(** [str(n)] for an integer. *)
Definition str_of_int (z : Z) : string :=
  NilZero.string_of_int (Z.to_int z).

(** ** The wrapped libraries *)

(** The opaque objects the libraries hand out. *)
Record Handles : Type := mk_handles {
  World : Type;
  DeltaTable : Type;
  Schema : Type;
  Metadata : Type;
  TableMerger : Type;
  S3Client : Type
}.

(** The library entry points the facades use.  Entry points that may do
    I/O take and return the world; conversions and accessors of an object
    already in memory do not.  The arguments the facades never pass
    ([version] of the [DeltaTable] constructor, [partitions] and [columns]
    of [to_pyarrow_table]) are part of the signatures, so that leaving
    them out is visible. *)
Record Library (H : Handles) : Type := mk_library {
  is_deltatable :
    string -> storage_options -> World H -> result bool * World H;
  write_deltalake :
    string -> arrow_table -> string -> storage_options ->
    option (list string) -> World H -> result unit * World H;
  to_arrow : polars_df -> result arrow_table;
  from_arrow : arrow_table -> result polars_df;
  DeltaTable_init :
    string -> option Z -> storage_options ->
    World H -> result (DeltaTable H) * World H;
  to_pyarrow_table :
    DeltaTable H -> option (list (string * string)) -> option (list string) ->
    World H -> result arrow_table * World H;
  version : DeltaTable H -> result Z;
  metadata : DeltaTable H -> result (Metadata H);
  schema : DeltaTable H -> result (Schema H);
  to_json : Schema H -> result string;
  json_loads : string -> result json;
  write_delta_merge :
    polars_df -> string -> merge_options -> storage_options ->
    World H -> result (TableMerger H) * World H;
  when_matched_update_all : TableMerger H -> result (TableMerger H);
  when_not_matched_insert_all : TableMerger H -> result (TableMerger H);
  when_not_matched_by_source_delete : TableMerger H -> result (TableMerger H);
  execute : TableMerger H -> World H -> result unit * World H;
  boto3_client :
    string -> string -> string -> string -> string ->
    World H -> result (S3Client H) * World H;
  list_buckets : S3Client H -> World H -> result pydict * World H;
  create_bucket : S3Client H -> string -> World H -> result unit * World H
}.
Arguments is_deltatable {H}.
Arguments write_deltalake {H}.
Arguments to_arrow {H}.
Arguments from_arrow {H}.
Arguments DeltaTable_init {H}.
Arguments to_pyarrow_table {H}.
Arguments version {H}.
Arguments metadata {H}.
Arguments schema {H}.
Arguments to_json {H}.
Arguments json_loads {H}.
Arguments write_delta_merge {H}.
Arguments when_matched_update_all {H}.
Arguments when_not_matched_insert_all {H}.
Arguments when_not_matched_by_source_delete {H}.
Arguments execute {H}.
Arguments boto3_client {H}.
Arguments list_buckets {H}.
Arguments create_bucket {H}.

(** One entry of the call trace: which entry point was called, with which
    arguments. *)
Inductive call (H : Handles) : Type :=
| Call_is_deltatable (table_uri : string) (so : storage_options)
| Call_write_deltalake (path : string) (table : arrow_table) (mode : string)
    (so : storage_options) (partition_by : option (list string))
| Call_to_arrow (df : polars_df)
| Call_from_arrow (t : arrow_table)
| Call_DeltaTable (path : string) (version : option Z) (so : storage_options)
| Call_to_pyarrow_table (dt : DeltaTable H)
    (partitions : option (list (string * string)))
    (columns : option (list string))
| Call_version (dt : DeltaTable H)
| Call_metadata (dt : DeltaTable H)
| Call_schema (dt : DeltaTable H)
| Call_to_json (s : Schema H)
| Call_json_loads (text : string)
| Call_write_delta (df : polars_df) (path : string) (mode : string)
    (delta_merge_options : merge_options) (so : storage_options)
| Call_when_matched_update_all (m : TableMerger H)
| Call_when_not_matched_insert_all (m : TableMerger H)
| Call_when_not_matched_by_source_delete (m : TableMerger H)
| Call_execute (m : TableMerger H)
| Call_boto3_client (service aws_access_key_id aws_secret_access_key
    endpoint_url region_name : string)
| Call_list_buckets (c : S3Client H)
| Call_create_bucket (c : S3Client H) (Bucket : string).
Arguments Call_is_deltatable {H}.
Arguments Call_write_deltalake {H}.
Arguments Call_to_arrow {H}.
Arguments Call_from_arrow {H}.
Arguments Call_DeltaTable {H}.
Arguments Call_to_pyarrow_table {H}.
Arguments Call_version {H}.
Arguments Call_metadata {H}.
Arguments Call_schema {H}.
Arguments Call_to_json {H}.
Arguments Call_json_loads {H}.
Arguments Call_write_delta {H}.
Arguments Call_when_matched_update_all {H}.
Arguments Call_when_not_matched_insert_all {H}.
Arguments Call_when_not_matched_by_source_delete {H}.
Arguments Call_execute {H}.
Arguments Call_boto3_client {H}.
Arguments Call_list_buckets {H}.
Arguments Call_create_bucket {H}.

(** ** The monad of the facades *)

Record state (H : Handles) : Type := mk_state {
  st_world : World H;
  st_log : list log_record;
  st_calls : list (call H * option exn)
}.
Arguments mk_state {H}.
Arguments st_world {H}.
Arguments st_log {H}.
Arguments st_calls {H}.

Definition M (H : Handles) (A : Type) : Type := state H -> result A * state H.

Definition ret {H : Handles} {A : Type} (a : A) : M H A :=
  fun s => (Ok a, s).

Definition bind {H : Handles} {A B : Type} (m : M H A) (k : A -> M H B) : M H B :=
  fun s =>
    match m s with
    | (Ok a, s') => k a s'
    | (Raise e, s') => (Raise e, s')
    end.

Definition raise {H : Handles} {A : Type} (e : exn) : M H A :=
  fun s => (Raise e, s).

Notation "x <- m ;; k" := (bind m (fun x => k))
  (at level 100, m at next level, right associativity).
Notation "m ;;; k" := (bind m (fun _ => k))
  (at level 100, right associativity).

(** [logger.<level>(message)] *)
Definition log {H : Handles} (l : level) (message : string) : M H unit :=
  fun s => (Ok tt, mk_state (st_world s) (st_log s ++ [mk_log l message]) (st_calls s)).

(** A library call that may touch the world. *)
Definition ext {H : Handles} {A : Type} (c : call H)
    (f : World H -> result A * World H) : M H A :=
  fun s =>
    let '(r, w) := f (st_world s) in
    (r, mk_state w (st_log s) (st_calls s ++ [(c, failure_of r)])).

(** A library call on objects in memory. *)
Definition ext_pure {H : Handles} {A : Type} (c : call H) (r : result A) : M H A :=
  ext c (fun w => (r, w)).

(** A local computation that may raise. *)
Definition lift {H : Handles} {A : Type} (r : result A) : M H A :=
  fun s => (r, s).

(** [except <classes> as e: <handler>] *)
Record except_clause (H : Handles) (A : Type) : Type := mk_except {
  exc_classes : list string;
  exc_handler : exn -> M H A
}.
Arguments mk_except {H A}.
Arguments exc_classes {H A}.
Arguments exc_handler {H A}.

(** [try: body except ...]: the first clause one of whose classes the
    exception is an instance of handles it; with no such clause the
    exception propagates. *)
Definition try_except {H : Handles} {A : Type} (body : M H A)
    (clauses : list (except_clause H A)) : M H A :=
  fun s =>
    match body s with
    | (Ok a, s') => (Ok a, s')
    | (Raise e, s') =>
        match List.find (fun c => isinstance_any e (exc_classes c)) clauses with
        | Some c => exc_handler c e s'
        | None => (Raise e, s')
        end
    end.

(** Run a facade from a world, with an empty log and an empty trace. *)
Definition run {H : Handles} {A : Type} (w : World H) (m : M H A)
    : result A * state H :=
  m (mk_state w [] []).

(** ** delta.py *)

(** The keyword defaults of the Python signatures are applied by the
    caller: [storage_options=None], [partition_by=None], [to_polars=False],
    and the two below. *)
Definition default_mode : string := "overwrite".
Definition default_region_name : string := "us-east-1".


(** The values of the dictionary [read_deltalake_metadata] returns. *)
Inductive metadata_value (H : Handles) : Type :=
| MetadataObject (m : Metadata H)
| SchemaJson (j : json)
| VersionNumber (v : Z).
Arguments MetadataObject {H}.
Arguments SchemaJson {H}.
Arguments VersionNumber {H}.

Section Delta.
Context {H : Handles} (lib : Library H).

Definition check_if_deltatable (path : string) (so : storage_options)
    : M H bool :=
  log INFO ("Checking if a Delta table exists at the specified path: " +:+ path) ;;;
  try_except
    (is_dt <- ext (Call_is_deltatable path so) (is_deltatable lib path so) ;;
     (if is_dt : bool
      then log INFO ("The path '" +:+ path +:+ "' contains a valid Delta table.")
      else log WARNING ("The path '" +:+ path +:+
                        "' does not contain a Delta table or it does not exist.")) ;;;
     ret is_dt)
    [mk_except ["Exception"] (fun e =>
       log ERROR ("An error occurred while checking if the path '" +:+ path +:+
                  "' is a Delta table: " +:+ exn_text e) ;;;
       raise e)].

Definition write_table_to_deltalake (table : table_arg) (path : string)
    (so : storage_options) (partition_by : option (list string))
    (mode : string) : M H unit :=
  try_except
    (log INFO ("Writing Delta table to: " +:+ path +:+ " with mode: " +:+ mode) ;;;
     table <- match table with
              | PolarsDataFrame df =>
                  log DEBUG "Converting Polars DataFrame to Arrow Table." ;;;
                  ext_pure (Call_to_arrow df) (to_arrow lib df)
              | ArrowTable t => ret t
              | OtherObject _ =>
                  raise (ValueError
                    "Input table must be an Arrow Table or a Polars DataFrame.")
              end ;;
     ext (Call_write_deltalake path table mode so partition_by)
         (write_deltalake lib path table mode so partition_by) ;;;
     log INFO "Delta table write successful.")
    [mk_except ["ValueError"] (fun ve =>
       log ERROR ("Invalid input table: " +:+ exn_text ve) ;;;
       raise ve);
     mk_except ["Exception"] (fun e =>
       log ERROR ("Error writing Delta table to path '" +:+ path +:+ "': " +:+
                  exn_text e) ;;;
       raise e)].

Definition read_table_in_deltalake (path : string) (so : storage_options)
    (to_polars : bool) : M H read_result :=
  log INFO ("Reading Delta table from path: " +:+ path) ;;;
  try_except
    (delta_table <- ext (Call_DeltaTable path None so)
                        (DeltaTable_init lib path None so) ;;
     arrow_table <- ext (Call_to_pyarrow_table delta_table None None)
                        (to_pyarrow_table lib delta_table None None) ;;
     result <- (if to_polars
                then
                  df <- ext_pure (Call_from_arrow arrow_table)
                                 (from_arrow lib arrow_table) ;;
                  log INFO "Delta table successfully converted to Polars DataFrame." ;;;
                  ret (AsPolars df)
                else
                  log INFO "Delta table successfully read as Arrow Table." ;;;
                  ret (AsArrow arrow_table)) ;;
     ret result)
    [mk_except ["Exception"] (fun e =>
       log ERROR ("Error reading Delta table from path '" +:+ path +:+ "': " +:+
                  exn_text e) ;;;
       raise e)].

Definition read_deltalake_metadata (path : string) (so : storage_options)
    : M H (gmap string (metadata_value H)) :=
  try_except
    (dt <- ext (Call_DeltaTable path None so) (DeltaTable_init lib path None so) ;;
     v <- ext_pure (Call_version dt) (version lib dt) ;;
     log INFO ("Loaded Delta table at version " +:+ str_of_int v) ;;;
     md <- ext_pure (Call_metadata dt) (metadata lib dt) ;;
     sch <- ext_pure (Call_schema dt) (schema lib dt) ;;
     text <- ext_pure (Call_to_json sch) (to_json lib sch) ;;
     js <- ext_pure (Call_json_loads text) (json_loads lib text) ;;
     v' <- ext_pure (Call_version dt) (version lib dt) ;;
     ret (<["version" := VersionNumber v']>
          (<["schema" := SchemaJson js]>
           (<["metadata" := MetadataObject md]> ∅))))
    [mk_except ["Exception"] (fun e =>
       log ERROR ("Error reading Delta table metadata: " +:+ exn_text e) ;;;
       raise e)].

Definition upsert_delta_table (df_with_changes : polars_df) (path : string)
    (id_column : string) (so : storage_options) : M H unit :=
  log INFO ("Initiating upsert operation on Delta table located at path: '" +:+
            path +:+ "' using '" +:+ id_column +:+ "' as the unique identifier.") ;;;
  try_except
    (let opts :=
       {| predicate := "source." +:+ id_column +:+ " = target." +:+ id_column;
          source_alias := "source";
          target_alias := "target" |} in
     m0 <- ext (Call_write_delta df_with_changes path "merge" opts so)
               (write_delta_merge lib df_with_changes path opts so) ;;
     m1 <- ext_pure (Call_when_matched_update_all m0)
                    (when_matched_update_all lib m0) ;;
     m2 <- ext_pure (Call_when_not_matched_insert_all m1)
                    (when_not_matched_insert_all lib m1) ;;
     m3 <- ext_pure (Call_when_not_matched_by_source_delete m2)
                    (when_not_matched_by_source_delete lib m2) ;;
     ext (Call_execute m3) (execute lib m3) ;;;
     log INFO ("Upsert operation successfully completed for the Delta table at path: '" +:+
               path +:+ "' using '" +:+ id_column +:+ "' as the unique identifier."))
    [mk_except ["Exception"] (fun e =>
       log ERROR ("Upsert operation failed for Delta table at path '" +:+ path +:+
                  "' using '" +:+ id_column +:+ "' as the unique identifier: " +:+
                  exn_text e) ;;;
       raise e)].

End Delta.

(** ** s3.py *)

(** Iterating over a Python value. *)
Definition py_iter (v : pyval) : result (list pyval) :=
  match v with
  | PyList items => Ok items
  | PyDict entries => Ok (map (fun kv => PyStr (fst kv)) entries)
  | PyStr s => Ok (map (fun c => PyStr (String c EmptyString)) (list_ascii_of_string s))
  | PyNone => Raise (TypeError "'NoneType' object is not iterable")
  | PyBool _ => Raise (TypeError "'bool' object is not iterable")
  | PyInt _ => Raise (TypeError "'int' object is not iterable")
  end.

(** [v[key]] for a string key. *)
Definition py_getitem (v : pyval) (key : string) : result pyval :=
  match v with
  | PyDict entries =>
      match dict_lookup key entries with
      | Some x => Ok x
      | None => Raise (KeyError key)
      end
  | PyStr _ => Raise (TypeError "string indices must be integers, not 'str'")
  | PyList _ => Raise (TypeError "list indices must be integers or slices, not str")
  | PyNone => Raise (TypeError "'NoneType' object is not subscriptable")
  | PyBool _ => Raise (TypeError "'bool' object is not subscriptable")
  | PyInt _ => Raise (TypeError "'int' object is not subscriptable")
  end.

(** [v == s] for a string [s]. *)
Definition py_eq_str (v : pyval) (s : string) : bool :=
  match v with
  | PyStr s' => String.eqb s' s
  | _ => false
  end.

(** [any(bucket["Name"] == bucket_name for bucket in buckets)]: the
    generator is consumed from the front and [any] stops at the first
    true element, so a later malformed entry is never subscripted. *)
Fixpoint any_bucket_named (bucket_name : string) (buckets : list pyval)
    : result bool :=
  match buckets with
  | [] => Ok false
  | bucket :: rest =>
      match py_getitem bucket "Name" with
      | Raise e => Raise e
      | Ok name =>
          if py_eq_str name bucket_name then Ok true
          else any_bucket_named bucket_name rest
      end
  end.

Section S3.
Context {H : Handles} (lib : Library H).

Definition connect_s3 (endpoint_url access_key secret_key region_name : string)
    : M H (S3Client H) :=
  try_except
    (log INFO "Initializing S3 client..." ;;;
     s3 <- ext (Call_boto3_client "s3" access_key secret_key endpoint_url region_name)
               (boto3_client lib "s3" access_key secret_key endpoint_url region_name) ;;
     log INFO "Successfully connected to S3." ;;;
     ret s3)
    [mk_except ["BotoCoreError"; "ClientError"] (fun e =>
       log ERROR ("Failed to connect to S3: " +:+ exn_text e) ;;;
       raise e)].

Definition ensure_bucket_exists (s3_client : S3Client H) (bucket_name : string)
    : M H unit :=
  try_except
    (response <- ext (Call_list_buckets s3_client) (list_buckets lib s3_client) ;;
     let buckets := dict_get response "Buckets" (PyList []) in
     items <- lift (py_iter buckets) ;;
     found <- lift (any_bucket_named bucket_name items) ;;
     if negb found
     then
       ext (Call_create_bucket s3_client bucket_name)
           (create_bucket lib s3_client bucket_name) ;;;
       log INFO ("Bucket '" +:+ bucket_name +:+ "' created.")
     else
       log INFO ("Bucket '" +:+ bucket_name +:+ "' already exists."))
    [mk_except ["Exception"] (fun e =>
       log ERROR ("Failed to check/create bucket: " +:+ exn_text e) ;;;
       raise e)].

End S3.

(** * An in-memory Delta Lake and object store

    A concrete [Library]: Delta tables are commit logs of snapshots kept
    per location, the object store is the list of its bucket names.  It
    follows the documented behaviour of the wrapped libraries on the part
    the facades use, and serves to run the facades on concrete inputs. *)

Module Reference.

(** *** Text helpers *)

Definition is_ident_char (a : ascii) : bool :=
  let n := nat_of_ascii a in
  (((48 <=? n) && (n <=? 57)) || ((65 <=? n) && (n <=? 90)) ||
   ((97 <=? n) && (n <=? 122)) || (n =? 95))%nat.

Fixpoint all_chars (p : ascii -> bool) (s : string) : bool :=
  match s with
  | EmptyString => true
  | String a s' => p a && all_chars p s'
  end.

Definition is_ident_start (a : ascii) : bool :=
  let n := nat_of_ascii a in
  (((65 <=? n) && (n <=? 90)) || ((97 <=? n) && (n <=? 122)) || (n =? 95))%nat.

(** A plain column or alias name, as the SQL tokenizer takes one without
    quoting: a letter or an underscore, then letters, digits and
    underscores.  A name that starts with a digit is read as a number. *)
Definition is_identifier (s : string) : bool :=
  match s with
  | EmptyString => false
  | String a _ => is_ident_start a && all_chars is_ident_char s
  end.

(** The longest prefix of name characters, and what follows it. *)
Fixpoint take_identifier (s : string) : string * string :=
  match s with
  | EmptyString => (EmptyString, EmptyString)
  | String a s' =>
      if is_ident_char a
      then let '(i, r) := take_identifier s' in (String a i, r)
      else (EmptyString, s)
  end.

(** [s] without the prefix [p], if it starts with it. *)
Fixpoint strip_prefix (p s : string) : option string :=
  match p, s with
  | EmptyString, _ => Some s
  | String a p', String b s' =>
      if Ascii.eqb a b then strip_prefix p' s' else None
  | String _ _, EmptyString => None
  end.

(** *** Handles *)

Record delta_table : Type := mk_delta_table {
  dt_uri : string;
  dt_version : Z;
  dt_snapshot : arrow_table;
  dt_partition_columns : list string
}.

Record table_metadata : Type := mk_table_metadata {
  md_partition_columns : list string
}.

(** The merge builder: the source, the target location, the options and
    the clauses added so far. *)
Record table_merger : Type := mk_table_merger {
  mg_source : polars_df;
  mg_path : string;
  mg_options : merge_options;
  mg_matched_update_all : bool;
  mg_not_matched_insert_all : bool;
  mg_not_matched_by_source_delete : bool
}.

Record s3_client : Type := mk_s3_client {
  cl_endpoint_url : string;
  cl_access_key : string;
  cl_secret_key : string;
  cl_region_name : string
}.

(** A table at a location: its partition columns and its commits, oldest
    first; the version of a commit is its position. *)
Record delta_log : Type := mk_delta_log {
  partition_columns : list string;
  commits : list arrow_table
}.

Record world : Type := mk_world {
  tables : gmap string delta_log;
  buckets : list string
}.

Definition handles : Handles :=
  mk_handles world delta_table (list (string * dtype)) table_metadata table_merger
    s3_client.

(** *** Exceptions of the libraries *)

Definition TableNotFoundError (text : string) : exn :=
  mk_exn "TableNotFoundError" ["DeltaError"; "Exception"; "BaseException"] text.

Definition DeltaError (text : string) : exn :=
  mk_exn "DeltaError" ["Exception"; "BaseException"] text.

Definition SchemaMismatchError (text : string) : exn :=
  mk_exn "SchemaMismatchError" ["DeltaError"; "Exception"; "BaseException"] text.

Definition JSONDecodeError (text : string) : exn :=
  mk_exn "JSONDecodeError" ["ValueError"; "Exception"; "BaseException"] text.

Definition InvalidRegionError (region : string) : exn :=
  mk_exn "InvalidRegionError"
    ["ValidationError"; "BotoCoreError"; "ValueError"; "Exception"; "BaseException"]
    ("Provided region_name '" +:+ region +:+ "' doesn't match a supported format.").

Definition ParamValidationError (text : string) : exn :=
  mk_exn "ParamValidationError" ["BotoCoreError"; "Exception"; "BaseException"] text.

Definition ClientError (text : string) : exn :=
  mk_exn "ClientError" ["Exception"; "BaseException"] text.

(** *** Delta tables *)

Definition latest (l : delta_log) : option arrow_table := last (commits l).

Definition commit (path : string) (partitions : list string) (t : arrow_table)
    (w : world) : world :=
  let l := match tables w !! path with
           | Some l => mk_delta_log (partition_columns l) (commits l ++ [t])
           | None => mk_delta_log partitions [t]
           end in
  mk_world (<[path := l]> (tables w)) (buckets w).

Definition columns_eqb (a b : list string) : bool :=
  bool_decide (a = b).

Definition ref_is_deltatable (path : string) (so : storage_options) (w : world)
    : result bool * world :=
  (Ok (bool_decide (is_Some (tables w !! path))), w).

(** Integers are stored as signed 64-bit values. *)
Definition storable_cell (c : cell) : bool :=
  match c with
  | CInt z => in_int64 z
  | _ => true
  end.

Definition storable (rows : list row) : bool :=
  forallb (forallb storable_cell) rows.

Definition save_modes : list string := ["error"; "append"; "overwrite"; "ignore"].

(** A write commits a snapshot, or raises and changes nothing.  Over an
    existing table the data must have the table's columns: the schema of
    a table is not replaced by a plain overwrite. *)
Definition ref_write_deltalake (path : string) (t : arrow_table) (mode : string)
    (so : storage_options) (partition_by : option (list string)) (w : world)
    : result unit * world :=
  let parts := default [] partition_by in
  if negb (bool_decide (mode ∈ save_modes))
  then (Raise (DeltaError ("Invalid save mode: " +:+ mode)), w)
  else if negb (storable (at_rows t))
  then (Raise (DeltaError "Invalid data type for Delta Lake"), w)
  else
    match tables w !! path ≫= latest with
    | None => (Ok tt, commit path parts t w)
    | Some old =>
        if String.eqb mode "ignore" then (Ok tt, w)
        else if String.eqb mode "error"
        then (Raise (DeltaError "A table already exists at this location"), w)
        else if negb (columns_eqb (at_columns t) (at_columns old))
        then (Raise (SchemaMismatchError
                       "Schema of data does not match table schema"), w)
        else if String.eqb mode "append"
        then (Ok tt, commit path parts
                       (mk_arrow (at_columns old) (at_rows old ++ at_rows t)) w)
        else (Ok tt, commit path parts t w)
    end.

(** The conversions between dataframe and Arrow table keep the column
    names and the cells. *)
Definition ref_to_arrow (df : polars_df) : result arrow_table :=
  Ok (mk_arrow (df_columns df) (df_rows df)).

Definition ref_from_arrow (t : arrow_table) : result polars_df :=
  Ok (mk_df (at_columns t) (at_rows t)).

Definition ref_DeltaTable (path : string) (version : option Z)
    (so : storage_options) (w : world) : result delta_table * world :=
  match tables w !! path with
  | None => (Raise (TableNotFoundError ("no log files at " +:+ path)), w)
  | Some l =>
      let v := match version with
               | Some v => v
               | None => (Z.of_nat (List.length (commits l)) - 1)%Z
               end in
      if (v <? 0)%Z then (Raise (DeltaError "Invalid table version"), w)
      else
        match commits l !! Z.to_nat v with
        | Some snap => (Ok (mk_delta_table path v snap (partition_columns l)), w)
        | None => (Raise (DeltaError "Invalid table version"), w)
        end
  end.

Fixpoint column_index (c : string) (cols : list string) : option nat :=
  match cols with
  | [] => None
  | c' :: cols' =>
      if String.eqb c' c then Some 0 else S <$> column_index c cols'
  end.

(** The cell of a row under a column; a missing cell reads as null. *)
Definition cell_of (cols : list string) (c : string) (r : row) : cell :=
  match column_index c cols with
  | Some i => nth i r CNull
  | None => CNull
  end.

Definition cell_text (c : cell) : option string :=
  match c with
  | CNull => None
  | CInt z => Some (str_of_int z)
  | CStr s => Some s
  end.

Definition in_partition (cols : list string) (filters : list (string * string))
    (r : row) : bool :=
  forallb (fun f => bool_decide (cell_text (cell_of cols (fst f) r) = Some (snd f)))
          filters.

Definition project (cols : list string) (wanted : list string) (r : row) : row :=
  map (fun c => cell_of cols c r) wanted.

Definition ref_to_pyarrow_table (dt : delta_table)
    (partitions : option (list (string * string)))
    (columns : option (list string)) (w : world) : result arrow_table * world :=
  let snap := dt_snapshot dt in
  let kept := match partitions with
              | Some fs => List.filter (in_partition (at_columns snap) fs) (at_rows snap)
              | None => at_rows snap
              end in
  match columns with
  | None => (Ok (mk_arrow (at_columns snap) kept), w)
  | Some cs =>
      if forallb (fun c => bool_decide (c ∈ at_columns snap)) cs
      then (Ok (mk_arrow cs (map (project (at_columns snap) cs) kept)), w)
      else (Raise (DeltaError "Column not found in table schema"), w)
  end.

Definition ref_version (dt : delta_table) : result Z := Ok (dt_version dt).

Definition ref_metadata (dt : delta_table) : result table_metadata :=
  Ok (mk_table_metadata (dt_partition_columns dt)).

(** The type the store shows for a column is that of its cells; a column
    of nulls only shows as a string column. *)
Definition column_type (t : arrow_table) (c : string) : dtype :=
  if existsb (fun r => match cell_of (at_columns t) c r with
                       | CInt _ => true
                       | _ => false
                       end) (at_rows t)
  then Int64 else Utf8.

Definition ref_schema (dt : delta_table) : result (list (string * dtype)) :=
  Ok (map (fun c => (c, column_type (dt_snapshot dt) c))
          (at_columns (dt_snapshot dt))).

(** *** JSON text *)

Definition dquote : ascii := ascii_of_nat 34.
Definition backslash : ascii := ascii_of_nat 92.

Fixpoint escape (s : string) : string :=
  match s with
  | EmptyString => EmptyString
  | String a s' =>
      if Ascii.eqb a dquote || Ascii.eqb a backslash
      then String backslash (String a (escape s'))
      else String a (escape s')
  end.

Definition quoted (s : string) : string :=
  String dquote (escape s +:+ String dquote EmptyString).

Fixpoint json_dumps (j : json) : string :=
  match j with
  | JNull => "null"
  | JBool true => "true"
  | JBool false => "false"
  | JNum z => str_of_int z
  | JStr s => quoted s
  | JArr items =>
      "[" +:+
      (fix go (l : list json) : string :=
         match l with
         | [] => EmptyString
         | x :: l' =>
             match l' with
             | [] => json_dumps x
             | _ :: _ => json_dumps x +:+ "," +:+ go l'
             end
         end) items +:+ "]"
  | JObj members =>
      "{" +:+
      (fix go (l : list (string * json)) : string :=
         match l with
         | [] => EmptyString
         | (k, v) :: l' =>
             match l' with
             | [] => quoted k +:+ ":" +:+ json_dumps v
             | _ :: _ => quoted k +:+ ":" +:+ json_dumps v +:+ "," +:+ go l'
             end
         end) members +:+ "}"
  end.

Definition is_space (a : ascii) : bool :=
  let n := nat_of_ascii a in ((n =? 32) || (n =? 9) || (n =? 10) || (n =? 13))%nat.

Definition is_digit (a : ascii) : bool :=
  let n := nat_of_ascii a in ((48 <=? n) && (n <=? 57))%nat.

Fixpoint skip_ws (s : string) : string :=
  match s with
  | String a s' => if is_space a then skip_ws s' else s
  | EmptyString => s
  end.

(** The text of a string literal after its opening quote, and the rest. *)
Fixpoint parse_string_body (s : string) : option (string * string) :=
  match s with
  | EmptyString => None
  | String a s' =>
      if Ascii.eqb a dquote then Some (EmptyString, s')
      else if Ascii.eqb a backslash then
        match s' with
        | String b s'' =>
            if Ascii.eqb b dquote || Ascii.eqb b backslash
            then '(t, r) ← parse_string_body s''; Some (String b t, r)
            else None
        | EmptyString => None
        end
      else '(t, r) ← parse_string_body s'; Some (String a t, r)
  end.

Fixpoint parse_digits (acc : Z) (s : string) : Z * string :=
  match s with
  | String a s' =>
      if is_digit a
      then parse_digits (10 * acc + Z.of_nat (nat_of_ascii a - 48))%Z s'
      else (acc, s)
  | EmptyString => (acc, s)
  end.

Definition starts_with_digit (s : string) : bool :=
  match s with
  | String a _ => is_digit a
  | EmptyString => false
  end.

Section Items.
Variable parse_value : string -> option (json * string).

(** The elements of an array after its opening bracket. *)
Fixpoint parse_items (fuel : nat) (s : string) : option (list json * string) :=
  match fuel with
  | O => None
  | S fuel' =>
      '(v, r) ← parse_value s;
      match skip_ws r with
      | String a r' =>
          if Ascii.eqb a "," then
            '(vs, r'') ← parse_items fuel' r'; Some (v :: vs, r'')
          else if Ascii.eqb a "]" then Some ([v], r')
          else None
      | EmptyString => None
      end
  end.

(** The members of an object after its opening brace. *)
Fixpoint parse_members (fuel : nat) (s : string)
    : option (list (string * json) * string) :=
  match fuel with
  | O => None
  | S fuel' =>
      match skip_ws s with
      | String q s1 =>
          if Ascii.eqb q dquote then
            '(k, s2) ← parse_string_body s1;
            match skip_ws s2 with
            | String c s3 =>
                if Ascii.eqb c ":" then
                  '(v, r) ← parse_value s3;
                  match skip_ws r with
                  | String a r' =>
                      if Ascii.eqb a "," then
                        '(ms, r'') ← parse_members fuel' r'; Some ((k, v) :: ms, r'')
                      else if Ascii.eqb a "}" then Some ([(k, v)], r')
                      else None
                  | EmptyString => None
                  end
                else None
            | EmptyString => None
            end
          else None
      | EmptyString => None
      end
  end.
End Items.

Fixpoint parse_json (fuel : nat) (s : string) : option (json * string) :=
  match fuel with
  | O => None
  | S fuel' =>
      let s := skip_ws s in
      match strip_prefix "null" s, strip_prefix "true" s, strip_prefix "false" s with
      | Some r, _, _ => Some (JNull, r)
      | _, Some r, _ => Some (JBool true, r)
      | _, _, Some r => Some (JBool false, r)
      | None, None, None =>
          match s with
          | EmptyString => None
          | String a s' =>
              if Ascii.eqb a dquote then
                '(t, r) ← parse_string_body s'; Some (JStr t, r)
              else if Ascii.eqb a "[" then
                match skip_ws s' with
                | String b r =>
                    if Ascii.eqb b "]" then Some (JArr [], r)
                    else '(vs, r') ← parse_items (parse_json fuel') fuel' s';
                         Some (JArr vs, r')
                | EmptyString => None
                end
              else if Ascii.eqb a "{" then
                match skip_ws s' with
                | String b r =>
                    if Ascii.eqb b "}" then Some (JObj [], r)
                    else '(ms, r') ← parse_members (parse_json fuel') fuel' s';
                         Some (JObj ms, r')
                | EmptyString => None
                end
              else if Ascii.eqb a "-" then
                if starts_with_digit s'
                then let '(n, r) := parse_digits 0 s' in Some (JNum (- n), r)
                else None
              else if is_digit a
              then let '(n, r) := parse_digits 0 s in Some (JNum n, r)
              else None
          end
      end
  end.

(** [json.loads]: one document and nothing after it. *)
Definition ref_json_loads (text : string) : result json :=
  match parse_json (S (String.length text)) text with
  | Some (j, r) =>
      match skip_ws r with
      | EmptyString => Ok j
      | String _ _ => Raise (JSONDecodeError "Extra data")
      end
  | None => Raise (JSONDecodeError "Expecting value")
  end.

Definition type_name (d : dtype) : string :=
  match d with
  | Int64 => "long"
  | Utf8 => "string"
  end.

Definition schema_json (fields : list (string * dtype)) : json :=
  JObj [("type", JStr "struct");
        ("fields", JArr (map (fun f => JObj [("name", JStr (fst f));
                                             ("type", JStr (type_name (snd f)));
                                             ("nullable", JBool true);
                                             ("metadata", JObj [])]) fields))].

Definition ref_to_json (fields : list (string * dtype)) : result string :=
  Ok (json_dumps (schema_json fields)).

(** *** Merge *)

(** [alias.column] at the front of a text, and what follows it. *)
Definition parse_qualified (s : string) : option (string * string * string) :=
  let '(a, r) := take_identifier s in
  match r with
  | String dot r' =>
      let '(c, r'') := take_identifier r' in
      if Ascii.eqb dot "." && is_identifier a && is_identifier c
      then Some (a, c, r'')
      else None
  | EmptyString => None
  end.

(** The predicates the store understands: [alias.column = alias.column]. *)
Definition parse_predicate (p : string)
    : option ((string * string) * (string * string)) :=
  '(a1, c1, r) ← parse_qualified p;
  r' ← strip_prefix " = " r;
  '(a2, c2, r'') ← parse_qualified r';
  if String.eqb r'' EmptyString then Some ((a1, c1), (a2, c2)) else None.

(** The source column and the target column a predicate compares. *)
Definition join_columns (o : merge_options) : option (string * string) :=
  '((a1, c1), (a2, c2)) ← parse_predicate (predicate o);
  if String.eqb a1 (source_alias o) && String.eqb a2 (target_alias o)
  then Some (c1, c2)
  else if String.eqb a1 (target_alias o) && String.eqb a2 (source_alias o)
  then Some (c2, c1)
  else None.

(** A change-set row laid out on the columns of the table: the insert-all
    clause sets the columns the change set has, the others are null. *)
Definition inserted_row (source_columns target_columns : list string) (s : row)
    : row :=
  map (fun c => cell_of source_columns c s) target_columns.

(** The update-all clause sets the columns the change set has and keeps
    the others of the target row. *)
Definition updated_row (source_columns target_columns : list string) (s t : row)
    : row :=
  map (fun c => if bool_decide (c ∈ source_columns)
                then cell_of source_columns c s
                else cell_of target_columns c t) target_columns.

(** Some target row is matched by more than one source row. *)
Definition multiply_matched (matches : row -> row -> bool)
    (source target : list row) : bool :=
  existsb (fun t => (1 <? List.length (List.filter (fun s => matches s t) source))%nat)
          target.

(** The rows a merge leaves: a full outer join of target and source.  A
    target row with a matching source row is updated from it when the
    builder has the update-all clause; a target row with none is dropped
    when it has the delete clause; a source row matching no target row is
    added when it has the insert-all clause.  Rows no clause applies to
    are kept as they are.  There is no merge when a target row to update
    is matched by more than one source row. *)
Definition merge_rows (update_all insert_all delete_unmatched : bool)
    (matches : row -> row -> bool) (update : row -> row -> row)
    (insert : row -> row) (source target : list row) : option (list row) :=
  if update_all && multiply_matched matches source target then None
  else
    Some
      (flat_map
         (fun t =>
            match List.filter (fun s => matches s t) source with
            | [] => if delete_unmatched then [] else [t]
            | s :: _ => if update_all then [update s t] else [t]
            end) target
       ++ (if insert_all
           then map insert
                  (List.filter (fun s => negb (existsb (matches s) target)) source)
           else [])).

Definition ref_write_delta_merge (df : polars_df) (path : string)
    (o : merge_options) (so : storage_options) (w : world)
    : result table_merger * world :=
  match tables w !! path with
  | None => (Raise (TableNotFoundError ("no log files at " +:+ path)), w)
  | Some _ => (Ok (mk_table_merger df path o false false false), w)
  end.

Definition ref_when_matched_update_all (m : table_merger) : result table_merger :=
  Ok (mk_table_merger (mg_source m) (mg_path m) (mg_options m)
        true (mg_not_matched_insert_all m) (mg_not_matched_by_source_delete m)).

Definition ref_when_not_matched_insert_all (m : table_merger) : result table_merger :=
  Ok (mk_table_merger (mg_source m) (mg_path m) (mg_options m)
        (mg_matched_update_all m) true (mg_not_matched_by_source_delete m)).

Definition ref_when_not_matched_by_source_delete (m : table_merger)
    : result table_merger :=
  Ok (mk_table_merger (mg_source m) (mg_path m) (mg_options m)
        (mg_matched_update_all m) (mg_not_matched_insert_all m) true).

(** One commit, or an error and no change.  The merge is refused when the
    predicate does not resolve, when the change set has a column the
    table lacks or a value the table cannot store, and when several
    change-set rows match one target row that would be updated. *)
Definition ref_execute (m : table_merger) (w : world) : result unit * world :=
  match tables w !! mg_path m ≫= latest with
  | None => (Raise (TableNotFoundError ("no log files at " +:+ mg_path m)), w)
  | Some target =>
      match join_columns (mg_options m) with
      | None => (Raise (DeltaError "Unable to parse the merge predicate"), w)
      | Some (cs, ct) =>
          let source := mg_source m in
          if negb (bool_decide (cs ∈ df_columns source))
             || negb (bool_decide (ct ∈ at_columns target))
          then (Raise (DeltaError "No field named in the merge predicate"), w)
          else if (mg_matched_update_all m || mg_not_matched_insert_all m)
                  && negb (forallb (fun c => bool_decide (c ∈ at_columns target))
                                   (df_columns source))
          then (Raise (DeltaError "No field named in the table schema"), w)
          else if negb (storable (df_rows source))
          then (Raise (DeltaError "Invalid data type for Delta Lake"), w)
          else
            let matches s t :=
              sql_eq (cell_of (df_columns source) cs s)
                     (cell_of (at_columns target) ct t) in
            match merge_rows (mg_matched_update_all m)
                    (mg_not_matched_insert_all m)
                    (mg_not_matched_by_source_delete m) matches
                    (updated_row (df_columns source) (at_columns target))
                    (inserted_row (df_columns source) (at_columns target))
                    (df_rows source) (at_rows target) with
            | None =>
                (Raise (DeltaError
                          "Multiple source rows matched a single target row"), w)
            | Some rows =>
                (Ok tt, commit (mg_path m) [] (mk_arrow (at_columns target) rows) w)
            end
      end
  end.

(** *** Object store *)

Definition is_alnum (a : ascii) : bool :=
  let n := nat_of_ascii a in
  (((48 <=? n) && (n <=? 57)) || ((65 <=? n) && (n <=? 90)) ||
   ((97 <=? n) && (n <=? 122)))%nat.

Definition is_alpha (a : ascii) : bool :=
  let n := nat_of_ascii a in
  (((65 <=? n) && (n <=? 90)) || ((97 <=? n) && (n <=? 122)))%nat.

Definition is_label_char (a : ascii) : bool := is_alnum a || Ascii.eqb a "-".

Definition first_char (s : string) : option ascii :=
  match s with
  | String a _ => Some a
  | EmptyString => None
  end.

Fixpoint last_char (s : string) : option ascii :=
  match s with
  | EmptyString => None
  | String a s' =>
      match last_char s' with
      | Some b => Some b
      | None => Some a
      end
  end.

(** [s[:-1]] *)
Fixpoint but_last (s : string) : string :=
  match s with
  | EmptyString => EmptyString
  | String a s' =>
      match s' with
      | EmptyString => EmptyString
      | String _ _ => String a (but_last s')
      end
  end.

Definition is_char (a : ascii) (o : option ascii) : bool :=
  match o with
  | Some b => Ascii.eqb a b
  | None => false
  end.

(** The prefix before the first character that [stop] holds of, and the
    text from that character on. *)
Fixpoint break_at (stop : ascii -> bool) (s : string) : string * string :=
  match s with
  | EmptyString => (EmptyString, EmptyString)
  | String a s' =>
      if stop a then (EmptyString, s)
      else let '(p, r) := break_at stop s' in (String a p, r)
  end.

(** The text after the last [a], if [a] occurs. *)
Fixpoint after_last (a : ascii) (s : string) : option string :=
  match s with
  | EmptyString => None
  | String b s' =>
      match after_last a s' with
      | Some r => Some r
      | None => if Ascii.eqb a b then Some s' else None
      end
  end.

Fixpoint split_on (a : ascii) (s : string) : list string :=
  match s with
  | EmptyString => [EmptyString]
  | String b s' =>
      if Ascii.eqb a b then EmptyString :: split_on a s'
      else match split_on a s' with
           | l :: ls => String b l :: ls
           | [] => [String b EmptyString]
           end
  end.

(** The region is checked against the host-label pattern of the SDK,
    [^(?![0-9]+$)(?!-)[a-zA-Z0-9-]{,63}(?<!-)$]: at most 63 letters,
    digits and hyphens, not digits only, no hyphen at either end.  The
    [$] of the pattern also matches before a final newline. *)
Definition host_label_pattern (s : string) : bool :=
  all_chars is_label_char s && (String.length s <=? 63)%nat
  && negb (negb (String.eqb s EmptyString) && all_chars is_digit s)
  && negb (is_char "-" (first_char s)) && negb (is_char "-" (last_char s)).

Definition without_final_newline (s : string) : string :=
  if is_char "010" (last_char s) then but_last s else s.

Definition valid_region (r : string) : bool :=
  host_label_pattern (without_final_newline r).

(** The endpoint is split as a URL and must have a host: a scheme of any
    name, [//], then the host up to the port, path, query or fragment.
    The host is a name, a sequence of labels separated by dots, each of 1
    to 63 letters, digits and hyphens with no hyphen at either end, at
    most 255 characters in all, one final dot allowed; or it is an IPv6
    address in brackets, up to eight groups of at most four hexadecimal
    digits separated by colons, one run of zero groups left out as [::]. *)
Definition is_scheme_char (a : ascii) : bool :=
  is_alnum a || Ascii.eqb a "+" || Ascii.eqb a "-" || Ascii.eqb a ".".

Definition after_scheme (url : string) : string :=
  let '(scheme, rest) := break_at (Ascii.eqb ":") url in
  match rest, first_char url with
  | String _ rest', Some a =>
      if is_alpha a && all_chars is_scheme_char scheme then rest' else url
  | _, _ => url
  end.

Definition netloc (url : string) : option string :=
  rest ← strip_prefix "//" (after_scheme url);
  Some (break_at (fun a => Ascii.eqb a "/" || Ascii.eqb a "?" || Ascii.eqb a "#")
                 rest).1.

Definition host_label (l : string) : bool :=
  negb (String.eqb l EmptyString) && (String.length l <=? 63)%nat
  && all_chars is_label_char l
  && negb (is_char "-" (first_char l)) && negb (is_char "-" (last_char l)).

Definition valid_host_name (h : string) : bool :=
  negb (String.eqb h EmptyString) && (String.length h <=? 255)%nat
  && forallb host_label
       (split_on "." (if is_char "." (last_char h) then but_last h else h)).

Definition is_hex_digit (a : ascii) : bool :=
  let n := nat_of_ascii a in
  (((48 <=? n) && (n <=? 57)) || ((65 <=? n) && (n <=? 70)) ||
   ((97 <=? n) && (n <=? 102)))%nat.

Definition hex_group (g : string) : bool :=
  negb (String.eqb g EmptyString) && (String.length g <=? 4)%nat
  && all_chars is_hex_digit g.

(** The groups of an address; [None] stands for the [::]. *)
Definition address_groups (a : string) : option (list (option string)) :=
  let mark g := if String.eqb g EmptyString then None else Some g in
  match split_on ":" a with
  | [] => None
  | g :: gs =>
      let front :=
        if String.eqb g EmptyString
        then match gs with
             | g' :: gs' => if String.eqb g' EmptyString then Some gs else None
             | [] => None
             end
        else Some (g :: gs) in
      gs1 ← front;
      match reverse gs1 with
      | z :: y :: rest =>
          if String.eqb z EmptyString
          then if String.eqb y EmptyString
               then Some (map mark (reverse (y :: rest)))
               else None
          else Some (map mark gs1)
      | _ => Some (map mark gs1)
      end
  end.

Definition valid_ipv6 (a : string) : bool :=
  match address_groups a with
  | None => false
  | Some gs =>
      let gaps := List.length (List.filter (fun g => bool_decide (g = None)) gs) in
      forallb (fun g => match g with Some t => hex_group t | None => true end) gs
      && (((gaps =? 0) && (List.length gs =? 8))
          || ((gaps =? 1) && (List.length gs <=? 8)))%nat
  end.

Definition valid_netloc (nl : string) : bool :=
  let hostinfo := default nl (after_last "@" nl) in
  match hostinfo with
  | String "[" bracketed =>
      let '(address, rest) := break_at (Ascii.eqb "]") bracketed in
      valid_ipv6 address
      && match rest with
         | String _ EmptyString => true
         | String _ (String colon _) => Ascii.eqb colon ":"
         | EmptyString => false
         end
  | _ =>
      all_chars (fun a => negb (Ascii.eqb a "[" || Ascii.eqb a "]")) hostinfo
      && valid_host_name (break_at (Ascii.eqb ":") hostinfo).1
  end.

Definition valid_endpoint (url : string) : bool :=
  all_chars (fun a => negb (Ascii.eqb a "009" || Ascii.eqb a "010" || Ascii.eqb a "013"))
            url
  && match netloc url with
     | None => false
     | Some nl => valid_netloc nl
     end.

Definition valid_bucket_name (b : string) : bool :=
  negb (String.eqb b EmptyString) && (String.length b <=? 255)%nat &&
  all_chars (fun a => is_alnum a || Ascii.eqb a "." || Ascii.eqb a "-"
                      || Ascii.eqb a "_") b.

Definition ref_boto3_client (service access_key secret_key endpoint_url
    region_name : string) (w : world) : result s3_client * world :=
  if negb (String.eqb service "s3")
  then (Raise (mk_exn "UnknownServiceError"
                 ["DataNotFoundError"; "BotoCoreError"; "Exception"; "BaseException"]
                 ("Unknown service: '" +:+ service +:+ "'.")), w)
  else if negb (valid_region region_name)
  then (Raise (InvalidRegionError region_name), w)
  else if negb (valid_endpoint endpoint_url)
  then (Raise (ValueError ("Invalid endpoint: " +:+ endpoint_url)), w)
  else (Ok (mk_s3_client endpoint_url access_key secret_key region_name), w).

Definition bucket_entry (name : string) : pyval :=
  PyDict [("Name", PyStr name)].

Definition ref_list_buckets (c : s3_client) (w : world) : result pydict * world :=
  (Ok [("Buckets", PyList (map bucket_entry (buckets w)));
       ("Owner", PyDict [("ID", PyStr (cl_access_key c))])], w).

Definition ref_create_bucket (c : s3_client) (name : string) (w : world)
    : result unit * world :=
  if negb (valid_bucket_name name)
  then (Raise (ParamValidationError ("Invalid bucket name: " +:+ name)), w)
  else if bool_decide (name ∈ buckets w)
  then (Raise (ClientError
                 "An error occurred (BucketAlreadyOwnedByYou) when calling the CreateBucket operation"),
        w)
  else (Ok tt, mk_world (tables w) (buckets w ++ [name])).

(** A service whose listing carries no ["Buckets"] entry. *)
Definition ref_list_buckets_terse (c : s3_client) (w : world)
    : result pydict * world :=
  (Ok [("ResponseMetadata", PyDict [("HTTPStatusCode", PyInt 200)])], w).

Definition make_lib
    (listing : s3_client -> world -> result pydict * world) : Library handles :=
  mk_library handles
    ref_is_deltatable ref_write_deltalake ref_to_arrow ref_from_arrow
    ref_DeltaTable ref_to_pyarrow_table ref_version ref_metadata ref_schema
    ref_to_json ref_json_loads
    ref_write_delta_merge ref_when_matched_update_all
    ref_when_not_matched_insert_all ref_when_not_matched_by_source_delete
    ref_execute
    ref_boto3_client listing ref_create_bucket.

Definition lib : Library handles := make_lib ref_list_buckets.

Definition terse_lib : Library handles := make_lib ref_list_buckets_terse.

Definition empty_world : World handles := mk_world ∅ [].

End Reference.

(** * Properties *)

(** ** Vocabulary of the statements *)

(** The merge predicate as the specification words it: an equality of the
    id column qualified by the two aliases. *)
Definition qualified (alias column : string) : string :=
  alias +:+ "." +:+ column.

Definition sql_equals (lhs rhs : string) : string :=
  lhs +:+ " = " +:+ rhs.

Definition equality_on (id_column : string) : merge_options :=
  {| predicate := sql_equals (qualified "source" id_column)
                             (qualified "target" id_column);
     source_alias := "source";
     target_alias := "target" |}.

Definition is_write_delta {H : Handles} (c : call H) : bool :=
  match c with
  | Call_write_delta _ _ _ _ _ => true
  | _ => false
  end.

Definition is_execute {H : Handles} (c : call H) : bool :=
  match c with
  | Call_execute _ => true
  | _ => false
  end.

(** The operations of the two facades, and what they return. *)
Inductive operation (H : Handles) : Type :=
| OpCheck (path : string) (so : storage_options)
| OpWrite (table : table_arg) (path : string) (so : storage_options)
    (partition_by : option (list string)) (mode : string)
| OpRead (path : string) (so : storage_options) (to_polars : bool)
| OpReadMetadata (path : string) (so : storage_options)
| OpUpsert (df_with_changes : polars_df) (path id_column : string)
    (so : storage_options)
| OpConnect (endpoint_url access_key secret_key region_name : string)
| OpEnsureBucket (s3_client : S3Client H) (bucket_name : string).
Arguments OpCheck {H}.
Arguments OpWrite {H}.
Arguments OpRead {H}.
Arguments OpReadMetadata {H}.
Arguments OpUpsert {H}.
Arguments OpConnect {H}.
Arguments OpEnsureBucket {H}.

Inductive returned (H : Handles) : Type :=
| ReturnedBool (b : bool)
| ReturnedNone
| ReturnedTable (r : read_result)
| ReturnedDict (d : gmap string (metadata_value H))
| ReturnedClient (c : S3Client H).
Arguments ReturnedBool {H}.
Arguments ReturnedNone {H}.
Arguments ReturnedTable {H}.
Arguments ReturnedDict {H}.
Arguments ReturnedClient {H}.

Definition perform {H : Handles} (lib : Library H) (op : operation H)
    : M H (returned H) :=
  match op with
  | OpCheck path so =>
      b <- check_if_deltatable lib path so ;; ret (ReturnedBool b)
  | OpWrite table path so partition_by mode =>
      write_table_to_deltalake lib table path so partition_by mode ;;; ret ReturnedNone
  | OpRead path so to_polars =>
      r <- read_table_in_deltalake lib path so to_polars ;; ret (ReturnedTable r)
  | OpReadMetadata path so =>
      d <- read_deltalake_metadata lib path so ;; ret (ReturnedDict d)
  | OpUpsert df path id_column so =>
      upsert_delta_table lib df path id_column so ;;; ret ReturnedNone
  | OpConnect endpoint_url access_key secret_key region_name =>
      c <- connect_s3 lib endpoint_url access_key secret_key region_name ;;
      ret (ReturnedClient c)
  | OpEnsureBucket c bucket_name =>
      ensure_bucket_exists lib c bucket_name ;;; ret ReturnedNone
  end.

(** The exception classes an operation's [except] clauses name. *)
Definition logged_classes {H : Handles} (op : operation H) : list string :=
  match op with
  | OpConnect _ _ _ _ => ["BotoCoreError"; "ClientError"]
  | OpWrite _ _ _ _ _ => ["ValueError"; "Exception"]
  | _ => ["Exception"]
  end.

(** A failure [e] is logged once, at error level, its text at the end of
    the message. *)
Definition logged_once (e : exn) (l : list log_record) : Prop :=
  exists context : string,
    error_records l = [mk_log ERROR (context +:+ exn_text e)].

(** Every failure of a library call is logged once and re-raised. *)
Definition logs_once_and_reraises {H : Handles} (lib : Library H) (w : World H)
    (op : operation H) : Prop :=
  forall (c : call H) (e : exn),
    (c, Some e) ∈ st_calls (run w (perform lib op)).2 ->
    (run w (perform lib op)).1 = Raise e /\
    logged_once e (st_log (run w (perform lib op)).2).

(** The context an operation puts in front of the text of the error it
    logs: the operation, and for the check, the read, the upsert and the
    general clause of the write also the location. *)
Definition error_context {H : Handles} (op : operation H) (e : exn) : string :=
  match op with
  | OpCheck path _ =>
      "An error occurred while checking if the path '" +:+ path +:+
      "' is a Delta table: "
  | OpWrite _ path _ _ _ =>
      if isinstance_any e ["ValueError"] then "Invalid input table: "
      else "Error writing Delta table to path '" +:+ path +:+ "': "
  | OpRead path _ _ => "Error reading Delta table from path '" +:+ path +:+ "': "
  | OpReadMetadata _ _ => "Error reading Delta table metadata: "
  | OpUpsert _ path id_column _ =>
      "Upsert operation failed for Delta table at path '" +:+ path +:+
      "' using '" +:+ id_column +:+ "' as the unique identifier: "
  | OpConnect _ _ _ _ => "Failed to connect to S3: "
  | OpEnsureBucket _ _ => "Failed to check/create bucket: "
  end.

(** A failure [e] is logged once, at error level, with a context: the one
    error record is the context, which is not empty, followed by the text
    of the error. *)
Definition logged_with_context (context : string) (e : exn)
    (l : list log_record) : Prop :=
  context <> EmptyString /\
  error_records l = [mk_log ERROR (context +:+ exn_text e)].

(** Every error the client constructor raises is logged once by connect
    and re-raised. *)
Definition logs_every_construction_error {H : Handles} (lib : Library H)
    (w : World H) (endpoint_url access_key secret_key region_name : string) : Prop :=
  forall e : exn,
    (boto3_client lib "s3" access_key secret_key endpoint_url region_name w).1
      = Raise e ->
    let out := run w (connect_s3 lib endpoint_url access_key secret_key
                        region_name) in
    out.1 = Raise e /\
    error_records (st_log out.2) =
      [mk_log ERROR ("Failed to connect to S3: " +:+ exn_text e)].

(** The bucket names a listing response carries. *)
Definition bucket_name_of (bucket : pyval) : option string :=
  match bucket with
  | PyDict entries =>
      match dict_lookup "Name" entries with
      | Some (PyStr name) => Some name
      | _ => None
      end
  | _ => None
  end.

Definition listed_names (response : pydict) : option (list string) :=
  match dict_lookup "Buckets" response with
  | Some (PyList items) => mapM bucket_name_of items
  | _ => None
  end.

(** The id of a row: its cell under the id column. *)
Definition id_of (columns : list string) (id_column : string) (r : row) : cell :=
  Reference.cell_of columns id_column r.

Definition id_cells (columns : list string) (id_column : string)
    (rows : list row) : list cell :=
  map (id_of columns id_column) rows.

(** Two rows have the same id: the ids are equal and not null, a null id
    being equal to no id. *)
Definition same_id (columns : list string) (id_column : string) (a b : row) : Prop :=
  id_of columns id_column a <> CNull /\
  id_of columns id_column a = id_of columns id_column b.

(** The same as a test, by SQL equality. *)
Definition id_match (columns : list string) (id_column : string) (s t : row) : bool :=
  sql_eq (id_of columns id_column s) (id_of columns id_column t).

(** The change-set rows with the id of the target row [t]. *)
Definition matching_changes (columns : list string) (id_column : string)
    (source : list row) (t : row) : list row :=
  List.filter (fun s => id_match columns id_column s t) source.

(** The change-set rows with the id of no target row. *)
Definition unmatched_changes (columns : list string) (id_column : string)
    (source target : list row) : list row :=
  List.filter (fun s => negb (existsb (id_match columns id_column s) target)) source.

(** The target rows with the id of some change-set row. *)
Definition matched_targets (columns : list string) (id_column : string)
    (source target : list row) : list row :=
  List.filter (fun t => existsb (fun s => id_match columns id_column s t) source)
              target.

(** [rows] is what the replace-the-world merge of the change set [source]
    leaves of [target]: for every matched target row one row, a
    change-set row of its id (the target row is overwritten by the
    incoming row); every unmatched change-set row, once (inserted); and
    nothing else, so that nothing is left of an unmatched target row
    (deleted).  The order of the rows is left open. *)
Definition replaces_the_world (columns : list string) (id_column : string)
    (source target rows : list row) : Prop :=
  exists updated : list row,
    Forall2 (fun t a => a ∈ source /\ same_id columns id_column a t)
            (matched_targets columns id_column source target) updated /\
    rows ≡ₚ updated ++ unmatched_changes columns id_column source target.

(** A text that does not go on with a name character. *)
Definition ends_name (rest : string) : Prop :=
  match rest with
  | EmptyString => True
  | String a _ => Reference.is_ident_char a = false
  end.

(** ** A worked scenario

    The target holds ids 1, 2 and 3; the change set carries ids 2, 3 and 4,
    with id 2 modified. *)

Definition scenario_target : arrow_table :=
  mk_arrow ["id"; "name"]
    [[CInt 1; CStr "ann"]; [CInt 2; CStr "bob"]; [CInt 3; CStr "cy"]].

Definition scenario_changes : polars_df :=
  mk_df ["id"; "name"]
    [[CInt 2; CStr "rob"]; [CInt 3; CStr "cy"]; [CInt 4; CStr "dee"]].

Definition scenario_world : World Reference.handles :=
  st_world
    (run Reference.empty_world
       (write_table_to_deltalake Reference.lib (ArrowTable scenario_target)
          "lake/people" None None "overwrite")).2.

Definition scenario_handle : DeltaTable Reference.handles :=
  Reference.mk_delta_table "lake/people" 0 scenario_target [].

Definition scenario_client : S3Client Reference.handles :=
  Reference.mk_s3_client "http://localhost:9000" "minio" "minio123" "us-east-1".

(** A table whose id column has a number for a name. *)
Definition codes_table : arrow_table :=
  mk_arrow ["1"; "name"] [[CInt 1; CStr "ann"]; [CInt 2; CStr "bob"]].

Definition codes_world : World Reference.handles :=
  st_world
    (run Reference.empty_world
       (write_table_to_deltalake Reference.lib (ArrowTable codes_table)
          "lake/codes" None None "overwrite")).2.

(** ** The upsert as a transaction

    The upsert of [df] at [path] returns, having run one merge: the log
    of the table, whose latest snapshot was [target], has one more commit
    and nothing else in the store has changed; the rows of the new
    snapshot are what the replace-the-world merge leaves. *)
Definition merge_committed (w : World Reference.handles) (df : polars_df)
    (path id_column : string) (so : storage_options)
    (l : Reference.delta_log) (history : list arrow_table) (target : arrow_table)
    : Prop :=
  exists (s : state Reference.handles) (rows : list row),
    run w (upsert_delta_table Reference.lib df path id_column so) = (Ok tt, s) /\
    (exists m, List.filter (fun c => is_execute c.1) (st_calls s) =
               [(Call_execute m, None)]) /\
    Reference.tables (st_world s) =
      <[path := Reference.mk_delta_log (Reference.partition_columns l)
                  (history ++ [target; mk_arrow (at_columns target) rows])]>
        (Reference.tables w) /\
    Reference.buckets (st_world s) = Reference.buckets w /\
    replaces_the_world (at_columns target) id_column (df_rows df) (at_rows target)
      rows.

(** The same of whatever table the location holds. *)
Definition upsert_applies_the_merge (w : World Reference.handles) (df : polars_df)
    (path id_column : string) (so : storage_options) : Prop :=
  exists (l : Reference.delta_log) (history : list arrow_table)
         (target : arrow_table),
    Reference.tables w !! path = Some l /\
    Reference.commits l = history ++ [target] /\
    merge_committed w df path id_column so l history target.

(** ** Vocabulary of the further properties *)

(** The entry points through which a table or the object store is
    changed: the writes, the merge builder and its execution, the creation
    of a bucket. *)
Definition is_write_entry {H : Handles} (c : call H) : bool :=
  match c with
  | Call_write_deltalake _ _ _ _ _ => true
  | Call_write_delta _ _ _ _ _ => true
  | Call_when_matched_update_all _ => true
  | Call_when_not_matched_insert_all _ => true
  | Call_when_not_matched_by_source_delete _ => true
  | Call_execute _ => true
  | Call_create_bucket _ _ => true
  | _ => false
  end.

(** The operations that only inspect: existence check, read, metadata
    read, connect. *)
Definition reads_only {H : Handles} (op : operation H) : bool :=
  match op with
  | OpCheck _ _ => true
  | OpRead _ _ _ => true
  | OpReadMetadata _ _ => true
  | OpConnect _ _ _ _ => true
  | _ => false
  end.

(** The location and storage options a library call is given, and the
    ones an operation is given. *)
Definition call_location {H : Handles} (c : call H)
    : option (string * storage_options) :=
  match c with
  | Call_is_deltatable path so => Some (path, so)
  | Call_write_deltalake path _ _ so _ => Some (path, so)
  | Call_DeltaTable path _ so => Some (path, so)
  | Call_write_delta _ path _ _ so => Some (path, so)
  | _ => None
  end.

Definition op_location {H : Handles} (op : operation H)
    : option (string * storage_options) :=
  match op with
  | OpCheck path so => Some (path, so)
  | OpWrite _ path so _ _ => Some (path, so)
  | OpRead path so _ => Some (path, so)
  | OpReadMetadata path so => Some (path, so)
  | OpUpsert _ path _ so => Some (path, so)
  | _ => None
  end.

(** No entry of a trace but the last one failed. *)
Fixpoint only_last_fails {H : Handles} (trace : list (call H * option exn)) : bool :=
  match trace with
  | [] => true
  | (_, failure) :: rest =>
      match rest with
      | [] => true
      | _ :: _ =>
          match failure with
          | None => only_last_fails rest
          | Some _ => false
          end
      end
  end.

(** The world an operation leaves. *)
Definition world_after {H : Handles} {A : Type} (w : World H) (m : M H A) : World H :=
  st_world (run w m).2.

(** The store behind a client whose listing is a fixed response. *)
Definition listing_lib (response : pydict) : Library Reference.handles :=
  Reference.make_lib (fun _ w => (Ok response, w)).

(** The store with a dataframe conversion that fails. *)
Definition broken_conversion_lib (e : exn) : Library Reference.handles :=
  mk_library Reference.handles
    (is_deltatable Reference.lib) (write_deltalake Reference.lib)
    (fun _ => Raise e) (from_arrow Reference.lib)
    (DeltaTable_init Reference.lib) (to_pyarrow_table Reference.lib)
    (version Reference.lib) (metadata Reference.lib) (schema Reference.lib)
    (to_json Reference.lib) (json_loads Reference.lib)
    (write_delta_merge Reference.lib) (when_matched_update_all Reference.lib)
    (when_not_matched_insert_all Reference.lib)
    (when_not_matched_by_source_delete Reference.lib)
    (execute Reference.lib)
    (boto3_client Reference.lib) (list_buckets Reference.lib)
    (create_bucket Reference.lib).

(** The store with a write that fails. *)
Definition broken_write_lib (e : exn) : Library Reference.handles :=
  mk_library Reference.handles
    (is_deltatable Reference.lib) (fun _ _ _ _ _ w => (Raise e, w))
    (to_arrow Reference.lib) (from_arrow Reference.lib)
    (DeltaTable_init Reference.lib) (to_pyarrow_table Reference.lib)
    (version Reference.lib) (metadata Reference.lib) (schema Reference.lib)
    (to_json Reference.lib) (json_loads Reference.lib)
    (write_delta_merge Reference.lib) (when_matched_update_all Reference.lib)
    (when_not_matched_insert_all Reference.lib)
    (when_not_matched_by_source_delete Reference.lib)
    (execute Reference.lib)
    (boto3_client Reference.lib) (list_buckets Reference.lib)
    (create_bucket Reference.lib).

(** ** Tactics *)

Ltac unfold_facade :=
  unfold run, perform, check_if_deltatable, write_table_to_deltalake,
    read_table_in_deltalake, read_deltalake_metadata, upsert_delta_table,
    connect_s3, ensure_bucket_exists,
    try_except, bind, ext_pure, ext, log, ret, raise, lift in *;
  cbn [st_world st_log st_calls fst snd] in *.

(** Split on an innermost scrutinee of the goal: the next library response,
    flag or [except] test. *)
Ltac inner_case :=
  match goal with
  | |- context [match ?x with _ => _ end] =>
      lazymatch x with
      | context [match _ with _ => _ end] => fail
      | _ => destruct x eqn:?
      end
  end; cbn.

(** Which entry of a short trace a membership hypothesis speaks of. *)
Ltac in_trace H :=
  repeat (apply elem_of_cons in H as [H|H]; [simplify_eq|]);
  try (apply elem_of_nil in H; contradiction).

(** The entries of a short concrete list are pairwise distinct. *)
Ltac distinct_cells :=
  vm_compute;
  repeat (apply NoDup_cons_2;
          [rewrite ?not_elem_of_cons; repeat split;
           first [discriminate | apply not_elem_of_nil]|]);
  apply NoDup_nil_2.

(** ** Text and exception classes *)

Lemma append_assoc (a b c : string) : (a +:+ b) +:+ c = a +:+ b +:+ c.
Proof.
  induction a as [|x a IH]; [done|].
  change (String x ((a +:+ b) +:+ c) = String x (a +:+ b +:+ c)). by f_equal.
Qed.

Lemma append_empty_r (a : string) : a +:+ EmptyString = a.
Proof.
  induction a as [|x a IH]; [done|].
  change (String x (a +:+ EmptyString) = String x a). by f_equal.
Qed.

Lemma isinstance_any_two (e : exn) (a b : string) :
  isinstance_any e [a; b] = isinstance_any e [a] || isinstance_any e [b].
Proof.
  unfold isinstance_any; cbn. by rewrite !orb_false_r.
Qed.

(** The message of an error record ends with the text of the error. *)
Ltac message_context :=
  first [ by (exists EmptyString)
        | by (rewrite <- ?append_assoc; eexists; reflexivity) ].

(** One path through a facade: the failure the trace shows is the one
    raised, and the error records are as the [except] tests decide. *)
Ltac settle_leaf :=
  let Hc := fresh "Hc" in
  intros Hc; in_trace Hc;
  rewrite ?isinstance_any_two in *;
  repeat match goal with
         | E : _ || _ = false |- _ => apply orb_false_elim in E as [? ?]
         | E : _ || _ = true |- _ => apply orb_true_iff in E as [?|?]
         end;
  try congruence;
  repeat match goal with
         | E : _ = _ |- _ => rewrite E; clear E
         end;
  (split; [reflexivity|]);
  first [ reflexivity
        | unfold logged_once, error_records; cbn; message_context ].

(** ** Writing *)

(** C2: an input that is neither an Arrow table nor a Polars dataframe
    makes the write raise [ValueError]; the failure is logged, no library
    entry point is called ([write_deltalake] in particular is never
    reached) and the world is left as it was. *)
Theorem write_rejects_other_objects {H : Handles} (lib : Library H)
    (w : World H) (v : pyval) (path : string) (so : storage_options)
    (partition_by : option (list string)) (mode : string) :
  let out := run w (write_table_to_deltalake lib (OtherObject v) path so
                      partition_by mode) in
  out.1 = Raise (ValueError
                   "Input table must be an Arrow Table or a Polars DataFrame.") /\
  st_calls out.2 = [] /\
  st_world out.2 = w /\
  st_log out.2 =
    [mk_log INFO ("Writing Delta table to: " +:+ path +:+ " with mode: " +:+ mode);
     mk_log ERROR
       "Invalid input table: Input table must be an Arrow Table or a Polars DataFrame."].
Proof.
  unfold_facade. cbn. done.
Qed.



(** ** Reading *)

(** C6: the read builds the table handle with no version pinned, hence at
    the latest commit, and scans it with no partition filter and no column
    selection.  Without the flag the scanned Arrow table is returned as it
    is; with it, [from_arrow] is applied to it once, after the scan, and
    its result is what the caller gets. *)
Theorem read_loads_latest_snapshot {H : Handles} (lib : Library H) (w : World H)
    (path : string) (so : storage_options) (to_polars : bool)
    (dt : DeltaTable H) (t : arrow_table) (w1 w2 : World H) :
  DeltaTable_init lib path None so w = (Ok dt, w1) ->
  to_pyarrow_table lib dt None None w1 = (Ok t, w2) ->
  let out := run w (read_table_in_deltalake lib path so to_polars) in
  if to_polars
  then
    match from_arrow lib t with
    | Ok df => out.1 = Ok (AsPolars df)
    | Raise e => out.1 = Raise e
    end /\
    st_calls out.2 =
      [(Call_DeltaTable path None so, None);
       (Call_to_pyarrow_table dt None None, None);
       (Call_from_arrow t, failure_of (from_arrow lib t))]
  else
    out.1 = Ok (AsArrow t) /\
    st_calls out.2 =
      [(Call_DeltaTable path None so, None);
       (Call_to_pyarrow_table dt None None, None)].
Proof.
  intros Hload Hscan out. subst out. unfold_facade.
  rewrite Hload; cbn. rewrite Hscan; cbn.
  destruct to_polars; cbn; [|done].
  destruct (from_arrow lib t) as [df|e]; cbn; [done|].
  destruct (isinstance_any e ["Exception"]); done.
Qed.

Lemma read_loads_latest_snapshot_witness :
  let out := run scenario_world
               (read_table_in_deltalake Reference.lib "lake/people" None true) in
  out.1 = Ok (AsPolars (mk_df ["id"; "name"] (at_rows scenario_target))) /\
  st_calls out.2 =
    [(Call_DeltaTable "lake/people" None None, None);
     (Call_to_pyarrow_table scenario_handle None None, None);
     (Call_from_arrow scenario_target, None)].
Proof.
  apply (read_loads_latest_snapshot Reference.lib scenario_world "lake/people"
           None true scenario_handle scenario_target scenario_world scenario_world);
    reflexivity.
Defined.

(** In the store, the snapshot read is the last commit of the log. *)
Lemma read_returns_latest_commit (w : World Reference.handles) (path : string)
    (so : storage_options) (l : Reference.delta_log)
    (history : list arrow_table) (t : arrow_table) :
  Reference.tables w !! path = Some l ->
  Reference.commits l = history ++ [t] ->
  (run w (read_table_in_deltalake Reference.lib path so false)).1 =
    Ok (AsArrow (mk_arrow (at_columns t) (at_rows t))).
Proof.
  intros Htable Hcommits. unfold_facade. cbn.
  unfold Reference.ref_DeltaTable. rewrite Htable, Hcommits.
  rewrite length_app, Nat.add_1_r.
  replace (Z.of_nat (S (List.length history)) - 1)%Z
    with (Z.of_nat (List.length history)) by lia.
  destruct (Z.ltb_spec (Z.of_nat (List.length history)) 0) as [Hneg|_]; [lia|].
  rewrite Nat2Z.id, list_lookup_middle by done. reflexivity.
Qed.

(** C7: when the table loads and its accessors answer, the metadata read
    returns a dictionary with the three keys "metadata", "schema" and
    "version" and no other: the metadata object, the schema's JSON text
    parsed by [json.loads], and the version number. *)
Theorem metadata_has_three_keys {H : Handles} (lib : Library H) (w w1 : World H)
    (path : string) (so : storage_options) (dt : DeltaTable H) (v : Z)
    (md : Metadata H) (sch : Schema H) (text : string) (js : json) :
  DeltaTable_init lib path None so w = (Ok dt, w1) ->
  version lib dt = Ok v ->
  metadata lib dt = Ok md ->
  schema lib dt = Ok sch ->
  to_json lib sch = Ok text ->
  json_loads lib text = Ok js ->
  exists d : gmap string (metadata_value H),
    (run w (read_deltalake_metadata lib path so)).1 = Ok d /\
    dom d = {["metadata"; "schema"; "version"]} /\
    d !! "metadata" = Some (MetadataObject md) /\
    d !! "schema" = Some (SchemaJson js) /\
    d !! "version" = Some (VersionNumber v).
Proof.
  intros Hload Hv Hmd Hsch Htext Hjs. unfold_facade.
  rewrite Hload; cbn. rewrite Hv; cbn. rewrite Hmd; cbn. rewrite Hsch; cbn.
  rewrite Htext; cbn. rewrite Hjs; cbn.
  eexists; split; [reflexivity|].
  split; [|by vm_compute].
  rewrite !dom_insert_L, dom_empty_L. set_solver.
Qed.

Lemma metadata_has_three_keys_witness :
  exists d : gmap string (metadata_value Reference.handles),
    (run scenario_world
       (read_deltalake_metadata Reference.lib "lake/people" None)).1 = Ok d /\
    dom d = {["metadata"; "schema"; "version"]} /\
    d !! "metadata" =
      Some (MetadataObject (H := Reference.handles) (Reference.mk_table_metadata [])) /\
    d !! "schema" =
      Some (SchemaJson
              (JObj [("type", JStr "struct");
                     ("fields",
                      JArr [JObj [("name", JStr "id"); ("type", JStr "long");
                                  ("nullable", JBool true);
                                  ("metadata", JObj [])];
                            JObj [("name", JStr "name"); ("type", JStr "string");
                                  ("nullable", JBool true);
                                  ("metadata", JObj [])]])])) /\
    d !! "version" = Some (VersionNumber 0).
Proof.
  eapply (metadata_has_three_keys Reference.lib scenario_world scenario_world
            "lake/people" None scenario_handle);
    vm_compute; reflexivity.
Defined.

(** ** Upsert *)

Lemma upsert_predicate_text (id_column : string) :
  "source." +:+ id_column +:+ " = target." +:+ id_column =
  sql_equals (qualified "source" id_column) (qualified "target" id_column).
Proof.
  unfold sql_equals, qualified. rewrite !append_assoc. reflexivity.
Qed.


Lemma take_identifier_app (c rest : string) :
  Reference.all_chars Reference.is_ident_char c = true ->
  ends_name rest ->
  Reference.take_identifier (c +:+ rest) = (c, rest).
Proof.
  intros Hc Hrest. induction c as [|x c IH].
  - change (EmptyString +:+ rest) with rest.
    destruct rest as [|a r]; [done|]. cbn in Hrest |- *. by rewrite Hrest.
  - cbn in Hc. apply andb_true_iff in Hc as [Hx Hc].
    change (String x c +:+ rest) with (String x (c +:+ rest)).
    cbn [Reference.take_identifier]. rewrite Hx, (IH Hc). done.
Qed.

Lemma is_identifier_spec (c : string) :
  Reference.is_identifier c = true ->
  Reference.all_chars Reference.is_ident_char c = true.
Proof.
  destruct c as [|a c]; [done|].
  unfold Reference.is_identifier. by intros [_ ?]%andb_true_iff.
Qed.

Lemma parse_qualified_app (a c rest : string) :
  Reference.is_identifier a = true ->
  Reference.is_identifier c = true ->
  ends_name rest ->
  Reference.parse_qualified (a +:+ "." +:+ c +:+ rest) = Some (a, c, rest).
Proof.
  intros Ha Hc Hrest.
  unfold Reference.parse_qualified.
  rewrite (take_identifier_app a ("." +:+ c +:+ rest))
    by (by apply is_identifier_spec || done).
  change ("." +:+ c +:+ rest) with (String "." (c +:+ rest)).
  cbv beta iota.
  rewrite (take_identifier_app c rest) by (by apply is_identifier_spec || done).
  rewrite Ha, Hc. done.
Qed.

(** The store reads the predicate the upsert builds as the comparison of
    the id column of the source with the id column of the target. *)
Lemma upsert_predicate_parses (id_column : string) :
  Reference.is_identifier id_column = true ->
  Reference.join_columns
    {| predicate := "source." +:+ id_column +:+ " = target." +:+ id_column;
       source_alias := "source"; target_alias := "target" |}
  = Some (id_column, id_column).
Proof.
  intros Hid. unfold Reference.join_columns, Reference.parse_predicate.
  cbn [predicate source_alias target_alias].
  change ("source." +:+ id_column +:+ " = target." +:+ id_column)
    with ("source" +:+ "." +:+ id_column +:+ " = target." +:+ id_column).
  rewrite parse_qualified_app by done. cbn [mbind option_bind].
  change (Reference.strip_prefix " = " (" = target." +:+ id_column))
    with (Some ("target." +:+ id_column)).
  cbn [mbind option_bind].
  rewrite <- (append_empty_r id_column) at 1.
  change ("target." +:+ id_column +:+ EmptyString)
    with ("target" +:+ "." +:+ id_column +:+ EmptyString).
  rewrite parse_qualified_app by done. done.
Qed.

(** A name that starts with a digit does not make a predicate. *)
Lemma digit_column_predicate_unresolved :
  Reference.join_columns
    {| predicate := "source.1 = target.1";
       source_alias := "source"; target_alias := "target" |} = None.
Proof. reflexivity. Qed.

(** *** Rows that fit their columns *)

Lemma row_fits_length (types : list dtype) (r : row) :
  row_fits types r = true -> List.length r = List.length types.
Proof.
  revert r. induction types as [|d types IH]; intros [|c r]; cbn; try done.
  intros [_ Hr]%andb_true_iff. by rewrite (IH r Hr).
Qed.

Lemma row_fits_storable (types : list dtype) (r : row) :
  row_fits types r = true -> forallb Reference.storable_cell r = true.
Proof.
  revert r. induction types as [|d types IH]; intros [|c r]; cbn; try done.
  intros [Hc Hr]%andb_true_iff. rewrite (IH r Hr), andb_true_r.
  by destruct c, d.
Qed.

Lemma rows_fit_length (types : list dtype) (rows : list row) :
  rows_fit types rows = true ->
  Forall (fun r => List.length r = List.length types) rows.
Proof.
  unfold rows_fit. rewrite forallb_forall. intros Hfit.
  apply Forall_forall. intros r Hr. apply row_fits_length, Hfit.
  by apply list_elem_of_In.
Qed.

Lemma rows_fit_storable (types : list dtype) (rows : list row) :
  rows_fit types rows = true -> Reference.storable rows = true.
Proof.
  unfold rows_fit, Reference.storable. rewrite !forallb_forall.
  intros Hfit r Hr. eapply row_fits_storable, Hfit, Hr.
Qed.

(** *** Rows laid out on the columns they already have *)

Lemma column_index_lookup (columns : list string) (i : nat) (c : string) :
  NoDup columns -> columns !! i = Some c ->
  Reference.column_index c columns = Some i.
Proof.
  revert i. induction columns as [|c' columns IH]; intros i Hnodup Hi; [done|].
  apply NoDup_cons in Hnodup as [Hfresh Hnodup].
  destruct i as [|i]; cbn in Hi |- *.
  - injection Hi as ->. by rewrite String.eqb_refl.
  - destruct (String.eqb_spec c' c) as [->|_].
    + exfalso. apply Hfresh. by eapply list_elem_of_lookup_2.
    + by rewrite (IH i Hnodup Hi).
Qed.

Lemma inserted_row_same (columns : list string) (s : row) :
  NoDup columns -> List.length s = List.length columns ->
  Reference.inserted_row columns columns s = s.
Proof.
  intros Hnodup Hlen. unfold Reference.inserted_row.
  apply list_eq. intros i. rewrite list_lookup_fmap.
  destruct (columns !! i) as [c|] eqn:Hc; cbn.
  - unfold Reference.cell_of. rewrite (column_index_lookup columns i c Hnodup Hc).
    assert (Hi : (i < List.length s)%nat).
    { rewrite Hlen. by eapply lookup_lt_Some. }
    destruct (lookup_lt_is_Some_2 s i Hi) as [x Hx].
    rewrite Hx. f_equal. by apply nth_lookup_Some.
  - symmetry. apply lookup_ge_None. rewrite Hlen. by apply lookup_ge_None.
Qed.

Lemma updated_row_same (columns : list string) (s t : row) :
  NoDup columns -> List.length s = List.length columns ->
  Reference.updated_row columns columns s t = s.
Proof.
  intros Hnodup Hlen. rewrite <- (inserted_row_same columns s Hnodup Hlen) at 2.
  unfold Reference.updated_row, Reference.inserted_row.
  apply map_ext_in. intros c Hc.
  rewrite bool_decide_eq_true_2; [done|]. by apply list_elem_of_In.
Qed.

(** *** Matching by id *)

Lemma sql_eq_eq (a b : cell) : sql_eq a b = true -> a = b.
Proof.
  destruct a, b; cbn; try done.
  - by intros ->%Z.eqb_eq.
  - by intros ->%String.eqb_eq.
Qed.

Lemma id_match_same_id (columns : list string) (id_column : string) (a b : row) :
  id_match columns id_column a b = true <-> same_id columns id_column a b.
Proof.
  unfold id_match, same_id. split.
  - intros Hm. split; [|by apply sql_eq_eq]. by destruct (id_of columns id_column a).
  - intros [Hnull <-]. destruct (id_of columns id_column a); cbn; [done| |].
    + apply Z.eqb_refl.
    + apply String.eqb_refl.
Qed.

(** With distinct ids in the change set, at most one of its rows has the
    id of a given target row. *)
Lemma matched_at_most_once (columns : list string) (id_column : string)
    (source : list row) (t : row) :
  NoDup (id_cells columns id_column source) ->
  (List.length (matching_changes columns id_column source t) <= 1)%nat.
Proof.
  unfold matching_changes.
  induction source as [|s source IH]; intros Hnodup; cbn; [lia|].
  cbn in Hnodup. apply NoDup_cons in Hnodup as [Hfresh Hnodup].
  destruct (id_match columns id_column s t) eqn:Hst; [|by apply IH].
  destruct (List.filter (fun s0 => id_match columns id_column s0 t) source)
    as [|r rest] eqn:Hrest; [cbn; lia|].
  exfalso. apply Hfresh.
  assert (Hr : In r (List.filter (fun s0 => id_match columns id_column s0 t) source)).
  { rewrite Hrest. by left. }
  apply filter_In in Hr as [Hr Hrt].
  apply sql_eq_eq in Hst. apply sql_eq_eq in Hrt. rewrite Hst, <- Hrt.
  apply list_elem_of_In, in_map, Hr.
Qed.

Lemma distinct_ids_match_once (columns : list string) (id_column : string)
    (source target : list row) :
  NoDup (id_cells columns id_column source) ->
  Reference.multiply_matched (id_match columns id_column) source target = false.
Proof.
  intros Hnodup. unfold Reference.multiply_matched.
  apply not_true_iff_false. intros (t & _ & Ht)%existsb_exists.
  apply Nat.ltb_lt in Ht.
  pose proof (matched_at_most_once columns id_column source t Hnodup) as Hone.
  unfold matching_changes in Hone. lia.
Qed.

(** *** The merge of the upsert *)

(** With the three clauses, the rows the store's merge leaves of a change
    set that has the columns of the table and distinct ids: for each
    target row the change-set row of its id, if there is one, then the
    change-set rows of no target id. *)
Lemma merge_rows_replace (columns : list string) (id_column : string)
    (source target : list row) :
  NoDup columns ->
  Forall (fun s => List.length s = List.length columns) source ->
  NoDup (id_cells columns id_column source) ->
  Reference.merge_rows true true true (id_match columns id_column)
    (Reference.updated_row columns columns) (Reference.inserted_row columns columns)
    source target
  = Some (flat_map (matching_changes columns id_column source) target
          ++ unmatched_changes columns id_column source target).
Proof.
  intros Hnodup Hlen Hdistinct. unfold Reference.merge_rows, unmatched_changes.
  rewrite distinct_ids_match_once by done. cbn [andb].
  assert (Hwide : forall s, In s source -> List.length s = List.length columns).
  { intros s Hs. by eapply (proj1 (Forall_forall _ _) Hlen), list_elem_of_In. }
  do 2 f_equal.
  - apply flat_map_ext. intros t.
    pose proof (matched_at_most_once columns id_column source t Hdistinct) as Hone.
    unfold matching_changes in *.
    destruct (List.filter (fun s => id_match columns id_column s t) source)
      as [|s rest] eqn:Hmatch; [done|].
    destruct rest as [|s' rest]; [|cbn in Hone; lia].
    rewrite updated_row_same; [done|done|]. apply Hwide.
    assert (Hin : In s (List.filter (fun s => id_match columns id_column s t) source)).
    { rewrite Hmatch. by left. }
    by apply filter_In in Hin as [? _].
  - rewrite <- (map_id (List.filter _ source)) at 2.
    apply map_ext_in. intros s Hs. apply filter_In in Hs as [Hs _].
    apply inserted_row_same; [done|by apply Hwide].
Qed.

(** Each matched target row is replaced by one row, a change-set row of
    its id. *)
Lemma matched_targets_replaced (columns : list string) (id_column : string)
    (source target : list row) :
  NoDup (id_cells columns id_column source) ->
  Forall2 (fun t a => a ∈ source /\ same_id columns id_column a t)
          (matched_targets columns id_column source target)
          (flat_map (matching_changes columns id_column source) target).
Proof.
  intros Hnodup. unfold matched_targets.
  induction target as [|t target IH]; cbn; [constructor|].
  pose proof (matched_at_most_once columns id_column source t Hnodup) as Hone.
  destruct (matching_changes columns id_column source t) as [|a rest] eqn:Hmatch.
  - replace (existsb (fun s => id_match columns id_column s t) source) with false;
      [done|].
    symmetry. apply not_true_iff_false. intros (s & Hs & Hst)%existsb_exists.
    assert (Hin : In s (matching_changes columns id_column source t)).
    { apply filter_In. done. }
    by rewrite Hmatch in Hin.
  - destruct rest as [|b rest]; [|cbn in Hone; lia].
    assert (Hin : In a (matching_changes columns id_column source t)).
    { rewrite Hmatch. by left. }
    apply filter_In in Hin as [Ha Hat].
    replace (existsb (fun s => id_match columns id_column s t) source) with true.
    + cbn. constructor; [|done]. split; [by apply list_elem_of_In|].
      by apply id_match_same_id.
    + symmetry. apply existsb_exists. by exists a.
Qed.

Lemma merge_replaces_the_world (columns : list string) (id_column : string)
    (source target : list row) :
  NoDup (id_cells columns id_column source) ->
  replaces_the_world columns id_column source target
    (flat_map (matching_changes columns id_column source) target
     ++ unmatched_changes columns id_column source target).
Proof.
  intros Hnodup. eexists. split; [by apply matched_targets_replaced|done].
Qed.

Lemma columns_all_present (columns : list string) :
  forallb (fun c => bool_decide (c ∈ columns)) columns = true.
Proof.
  apply forallb_forall. intros c Hc. apply bool_decide_eq_true_2.
  by apply list_elem_of_In.
Qed.

(** The store runs the merge of the upsert: one commit, of the rows
    above. *)
Lemma reference_execute (w : World Reference.handles) (df : polars_df)
    (path id_column : string)
    (l : Reference.delta_log) (history : list arrow_table) (target : arrow_table)
    (types : list dtype) :
  Reference.tables w !! path = Some l ->
  Reference.commits l = history ++ [target] ->
  Reference.is_identifier id_column = true ->
  id_column ∈ at_columns target ->
  df_columns df = at_columns target ->
  NoDup (at_columns target) ->
  List.length types = List.length (at_columns target) ->
  rows_fit types (df_rows df) = true ->
  NoDup (id_cells (at_columns target) id_column (df_rows df)) ->
  Reference.ref_execute
    (Reference.mk_table_merger df path
       {| predicate := "source." +:+ id_column +:+ " = target." +:+ id_column;
          source_alias := "source"; target_alias := "target" |}
       true true true) w
  = (Ok tt,
     Reference.commit path []
       (mk_arrow (at_columns target)
          (flat_map (matching_changes (at_columns target) id_column (df_rows df))
                    (at_rows target)
           ++ unmatched_changes (at_columns target) id_column (df_rows df)
                (at_rows target))) w).
Proof.
  intros Htable Hcommits Hid Hcol Hschema Hcolumns Htypes Hfit Hdistinct.
  unfold Reference.ref_execute.
  cbn [Reference.mg_path Reference.mg_options Reference.mg_source
       Reference.mg_matched_update_all Reference.mg_not_matched_insert_all
       Reference.mg_not_matched_by_source_delete].
  rewrite Htable. cbn [mbind option_bind]. unfold Reference.latest.
  rewrite Hcommits, last_snoc.
  rewrite upsert_predicate_parses by done.
  rewrite Hschema, columns_all_present.
  rewrite !bool_decide_eq_true_2 by done.
  rewrite (rows_fit_storable types) by done.
  cbn [negb orb andb].
  change (fun s t : row =>
            sql_eq (Reference.cell_of (at_columns target) id_column s)
                   (Reference.cell_of (at_columns target) id_column t))
    with (id_match (at_columns target) id_column).
  rewrite merge_rows_replace; [done|done| |done].
  rewrite <- Htypes. by apply rows_fit_length.
Qed.

Lemma reference_upsert (w : World Reference.handles) (df : polars_df)
    (path id_column : string) (so : storage_options)
    (l : Reference.delta_log) (history : list arrow_table) (target : arrow_table)
    (types : list dtype) :
  Reference.tables w !! path = Some l ->
  Reference.commits l = history ++ [target] ->
  Reference.is_identifier id_column = true ->
  id_column ∈ at_columns target ->
  df_columns df = at_columns target ->
  NoDup (at_columns target) ->
  List.length types = List.length (at_columns target) ->
  rows_fit types (df_rows df) = true ->
  NoDup (id_cells (at_columns target) id_column (df_rows df)) ->
  exists s : state Reference.handles,
    run w (upsert_delta_table Reference.lib df path id_column so) = (Ok tt, s) /\
    (exists m, List.filter (fun c => is_execute c.1) (st_calls s) =
               [(Call_execute m, None)]) /\
    st_world s =
      Reference.commit path []
        (mk_arrow (at_columns target)
           (flat_map (matching_changes (at_columns target) id_column (df_rows df))
                     (at_rows target)
            ++ unmatched_changes (at_columns target) id_column (df_rows df)
                 (at_rows target))) w.
Proof.
  intros Htable Hcommits Hid Hcol Hschema Hcolumns Htypes Hfit Hdistinct.
  unfold_facade. cbn -[Reference.ref_execute].
  unfold Reference.ref_write_delta_merge. rewrite Htable.
  cbn -[Reference.ref_execute].
  rewrite (reference_execute w df path id_column l history target types) by done.
  cbn. eexists. split; [reflexivity|]. cbn. split; [eauto|done].
Qed.



(** The scenario, run: id 1 is gone, id 2 carries the change-set version,
    id 3 is as it was, id 4 is new; the table is at version 1. *)
Lemma upsert_scenario :
  let after := st_world (run scenario_world
                 (upsert_delta_table Reference.lib scenario_changes
                    "lake/people" "id" None)).2 in
  (run after (read_table_in_deltalake Reference.lib "lake/people" None false)).1 =
    Ok (AsArrow (mk_arrow ["id"; "name"]
                   [[CInt 2; CStr "rob"]; [CInt 3; CStr "cy"]; [CInt 4; CStr "dee"]])) /\
  match (run after (read_deltalake_metadata Reference.lib "lake/people" None)).1 with
  | Ok d => d !! "version" = Some (VersionNumber 1)
  | Raise _ => False
  end.
Proof.
  split; vm_compute; reflexivity.
Qed.

(** The delete clause is what removes the unmatched target row: without
    it id 1 of the scenario stays. *)
Lemma merge_without_delete_keeps_unmatched :
  Reference.merge_rows true true false (id_match ["id"; "name"] "id")
    (Reference.updated_row ["id"; "name"] ["id"; "name"])
    (Reference.inserted_row ["id"; "name"] ["id"; "name"])
    (df_rows scenario_changes) (at_rows scenario_target) =
  Some [[CInt 1; CStr "ann"]; [CInt 2; CStr "rob"]; [CInt 3; CStr "cy"];
        [CInt 4; CStr "dee"]].
Proof. reflexivity. Qed.

(** The outcomes of the upsert outside these preconditions. *)
Lemma upsert_without_table_raises :
  let out := run Reference.empty_world
               (upsert_delta_table Reference.lib scenario_changes
                  "lake/people" "id" None) in
  out.1 = Raise (Reference.TableNotFoundError "no log files at lake/people") /\
  st_world out.2 = Reference.empty_world.
Proof. split; reflexivity. Qed.

Lemma upsert_with_repeated_id_raises :
  let out := run scenario_world
               (upsert_delta_table Reference.lib
                  (mk_df ["id"; "name"]
                     [[CInt 2; CStr "rob"]; [CInt 2; CStr "bobby"]])
                  "lake/people" "id" None) in
  out.1 = Raise (Reference.DeltaError
                   "Multiple source rows matched a single target row") /\
  st_world out.2 = scenario_world.
Proof. split; reflexivity. Qed.

Lemma upsert_on_digit_column_raises :
  let out := run codes_world
               (upsert_delta_table Reference.lib
                  (mk_df ["1"; "name"] [[CInt 2; CStr "rob"]])
                  "lake/codes" "1" None) in
  out.1 = Raise (Reference.DeltaError "Unable to parse the merge predicate") /\
  st_world out.2 = codes_world.
Proof. split; reflexivity. Qed.


(** ** Failures *)

(** The error record of a path: the context of the operation, then the
    text of the error. *)
Ltac context_recorded :=
  split;
  [ let Hempty := fresh "Hempty" in
    intros Hempty; vm_compute in Hempty; discriminate Hempty
  | cbn; rewrite ?append_assoc; reflexivity ].

Ltac settle_context_leaf :=
  let Hc := fresh "Hc" in
  intros Hc; in_trace Hc;
  rewrite ?isinstance_any_two in *;
  repeat match goal with
         | E : _ || _ = false |- _ => apply orb_false_elim in E as [? ?]
         | E : _ || _ = true |- _ => apply orb_true_iff in E as [?|?]
         end;
  try congruence;
  repeat match goal with
         | E : _ = _ |- _ => rewrite E; clear E
         end;
  (split; [reflexivity|]);
  first [ reflexivity
        | unfold logged_with_context, error_records; context_recorded ].

(** C4, as the code has it: a failure of a library call always reaches the
    caller as the same error.  When it is an instance of a class the
    operation's [except] clauses name ([Exception] for the Delta
    operations and for ensure-bucket-exists, [BotoCoreError] or
    [ClientError] for connect) it is logged once at error level with
    context: the one error record is the context of the operation, which
    is not empty, followed by the text of the error.  Otherwise it leaves
    no error record. *)
Theorem failures_reraised_and_logged_when_caught {H : Handles} (lib : Library H)
    (w : World H) (op : operation H) (c : call H) (e : exn) :
  (c, Some e) ∈ st_calls (run w (perform lib op)).2 ->
  (run w (perform lib op)).1 = Raise e /\
  if isinstance_any e (logged_classes op)
  then logged_with_context (error_context op e) e
         (st_log (run w (perform lib op)).2)
  else error_records (st_log (run w (perform lib op)).2) = [].
Proof.
  destruct op; unfold logged_classes, error_context; unfold_facade;
    repeat inner_case.
  all: settle_context_leaf.
Qed.

Lemma failures_reraised_and_logged_when_caught_witness :
  let out := run Reference.empty_world
               (perform Reference.lib (OpRead "lake/missing" None false)) in
  out.1 = Raise (Reference.TableNotFoundError "no log files at lake/missing") /\
  logged_with_context "Error reading Delta table from path 'lake/missing': "
    (Reference.TableNotFoundError "no log files at lake/missing")
    (st_log out.2).
Proof.
  apply (failures_reraised_and_logged_when_caught Reference.lib Reference.empty_world
           (OpRead "lake/missing" None false)
           (Call_DeltaTable "lake/missing" None None)
           (Reference.TableNotFoundError "no log files at lake/missing")).
  apply list_elem_of_here.
Defined.

(** What the context carries.  The check, the read, the upsert and the
    general clause of the write name the location; the metadata read,
    ensure-bucket-exists, connect and the [ValueError] clause of the write
    name the operation only, whatever the location or the bucket. *)
Lemma error_context_with_location {H : Handles} (op : operation H) (e : exn)
    (path : string) (so : storage_options) :
  op_location op = Some (path, so) ->
  (forall so', op <> OpReadMetadata path so') ->
  (forall t p m, op = OpWrite t path so p m -> isinstance_any e ["ValueError"] = false) ->
  exists before after : string,
    error_context op e = before +:+ path +:+ after.
Proof.
  intros Hlocation Hmetadata Hwrite. destruct op; cbn in Hlocation; try done.
  - injection Hlocation as -> ->. cbn. by eexists _, _.
  - injection Hlocation as -> ->. cbn.
    rewrite (Hwrite table partition_by mode eq_refl). by eexists _, _.
  - injection Hlocation as -> ->. cbn. by eexists _, _.
  - injection Hlocation as -> ->. by destruct (Hmetadata so).
  - injection Hlocation as -> ->. cbn. by eexists _, _.
Qed.

Lemma error_context_without_location {H : Handles} (e e' : exn)
    (path path' : string) (so so' : storage_options)
    (c c' : S3Client H) (bucket bucket' : string) :
  error_context (H := H) (OpReadMetadata path so) e =
    error_context (H := H) (OpReadMetadata path' so') e' /\
  error_context (OpEnsureBucket c bucket) e =
    error_context (OpEnsureBucket c' bucket') e'.
Proof. done. Qed.

(** An error that is no [Exception], such as the panic of a native
    extension, passes the handlers of the Delta operations unlogged. *)
Lemma error_outside_exception_not_logged :
  let e := mk_exn "PanicException" ["BaseException"] "called unwrap on None" in
  let out := run Reference.empty_world
               (perform (broken_conversion_lib e)
                  (OpWrite (PolarsDataFrame scenario_changes) "lake/people" None
                     None "overwrite")) in
  out.1 = Raise e /\ error_records (st_log out.2) = [].
Proof. split; reflexivity. Qed.

(** C4 as stated fails: an endpoint without a scheme makes [boto3.client]
    raise [ValueError], which the [except] clause of [connect_s3] does not
    name; the error reaches the caller with no error record written. *)
Lemma connect_error_outside_sdk_not_logged :
  ~ logs_once_and_reraises Reference.lib Reference.empty_world
      (OpConnect "localhost:9000" "minio" "minio123" "us-east-1").
Proof.
  intros Hclaim.
  destruct (Hclaim
              (Call_boto3_client "s3" "minio" "minio123" "localhost:9000" "us-east-1")
              (ValueError "Invalid endpoint: localhost:9000"))
    as [_ [context Hlog]].
  - apply list_elem_of_here.
  - vm_compute in Hlog. discriminate Hlog.
Qed.

(** ** Object storage *)

(** C9, as the code has it: connect makes one library call,
    [boto3.client] for service "s3" with the given access key, secret key,
    endpoint and region, and no call that would reach the service; what
    the constructor returns or raises is what the caller gets.  A
    construction error that is an instance of [BotoCoreError] or
    [ClientError] is logged once at error level before it is re-raised;
    any other construction error is re-raised with no error record. *)
Theorem connect_constructs_client {H : Handles} (lib : Library H) (w : World H)
    (endpoint_url access_key secret_key region_name : string) :
  let out := run w (connect_s3 lib endpoint_url access_key secret_key region_name) in
  let built := boto3_client lib "s3" access_key secret_key endpoint_url region_name w in
  st_calls out.2 =
    [(Call_boto3_client "s3" access_key secret_key endpoint_url region_name,
      failure_of built.1)] /\
  out.1 = built.1 /\
  st_world out.2 = built.2 /\
  error_records (st_log out.2) =
    match built.1 with
    | Raise e =>
        if isinstance_any e ["BotoCoreError"; "ClientError"]
        then [mk_log ERROR ("Failed to connect to S3: " +:+ exn_text e)]
        else []
    | Ok _ => []
    end.
Proof.
  unfold_facade.
  destruct (boto3_client _ _ _ _ _ _ _) as [[c|e] w0]; cbn; [done|].
  destruct (isinstance_any e [_; _]) eqn:He; done.
Qed.

(** C9 as stated fails: not every error of the client constructor is
    logged.  For an endpoint without a scheme the constructor raises
    [ValueError], no instance of [BotoCoreError] or [ClientError]: connect
    re-raises it and writes no error record. *)
Lemma connect_construction_error_not_logged :
  ~ logs_every_construction_error Reference.lib Reference.empty_world
      "localhost:9000" "minio" "minio123" "us-east-1".
Proof.
  intros Hclaim.
  destruct (Hclaim (ValueError "Invalid endpoint: localhost:9000") eq_refl)
    as [_ Hlog].
  vm_compute in Hlog. discriminate Hlog.
Qed.

(** An SDK-level construction error, run: a malformed region. *)
Lemma connect_invalid_region_logged :
  let out := run Reference.empty_world
               (connect_s3 Reference.lib "http://localhost:9000" "minio" "minio123"
                  "us east") in
  out.1 = Raise (Reference.InvalidRegionError "us east") /\
  error_records (st_log out.2) =
    [mk_log ERROR
       "Failed to connect to S3: Provided region_name 'us east' doesn't match a supported format."].
Proof.
  split; reflexivity.
Qed.

Lemma any_bucket_named_listed (bucket_name : string) (items : list pyval)
    (names : list string) :
  mapM bucket_name_of items = Some names ->
  any_bucket_named bucket_name items = Ok (bool_decide (bucket_name ∈ names)).
Proof.
  revert names. induction items as [|b items IH]; intros names Hnames.
  - inversion Hnames; subst. cbn.
    rewrite bool_decide_eq_false_2; [done | apply not_elem_of_nil].
  - cbn in Hnames.
    destruct (bucket_name_of b) as [n|] eqn:Hb; [|done]. cbn in Hnames.
    destruct (mapM bucket_name_of items) as [ns|] eqn:Hns; [|done].
    inversion Hnames; subst. clear Hnames.
    destruct b as [| | | |?|entries]; try done. cbn in Hb |- *.
    destruct (dict_lookup "Name" entries) as [[| | |s| |]|]; try done.
    simplify_eq. cbn.
    destruct (String.eqb n bucket_name) eqn:Heq.
    + apply String.eqb_eq in Heq as ->. f_equal. symmetry.
      apply bool_decide_eq_true. apply list_elem_of_here.
    + rewrite (IH ns eq_refl). f_equal. apply bool_decide_ext.
      apply String.eqb_neq in Heq. rewrite elem_of_cons. intuition congruence.
Qed.

Lemma count_one_of_NoDup (name : string) (names : list string) :
  name ∈ names -> NoDup names ->
  List.length (List.filter (String.eqb name) names) = 1.
Proof.
  intros Hin Hnodup.
  induction Hnodup as [|n ns Hn Hnd IH]; [by apply elem_of_nil in Hin|].
  cbn. destruct (String.eqb name n) eqn:Heq.
  - apply String.eqb_eq in Heq as ->. cbn. f_equal.
    clear -Hn. induction ns as [|m ns IH]; [done|]. cbn.
    destruct (String.eqb n m) eqn:Hm.
    + apply String.eqb_eq in Hm as ->. exfalso. apply Hn. apply list_elem_of_here.
    + apply IH. intros Hin. apply Hn. by apply list_elem_of_further.
  - apply IH. apply elem_of_cons in Hin as [->|]; [|done].
    by rewrite String.eqb_refl in Heq.
Qed.

(** C8: on a service that lists the buckets it holds, keeps their names
    distinct and creates a bucket that is absent, ensure-bucket-exists
    lists the buckets and calls [create_bucket] exactly when no listed
    bucket has the name.  Run twice in a row, both runs return without an
    error, the second only lists and changes nothing, and the service
    holds exactly one bucket of that name. *)
Theorem ensure_bucket_exists_idempotent {H : Handles} (lib : Library H)
    (names : World H -> list string) (c : S3Client H) (bucket_name : string)
    (w : World H) :
  (forall w0, exists response,
      list_buckets lib c w0 = (Ok response, w0) /\
      listed_names response = Some (names w0)) ->
  (forall w0, bucket_name ∉ names w0 ->
      exists w1, create_bucket lib c bucket_name w0 = (Ok tt, w1) /\
                 names w1 ≡ₚ bucket_name :: names w0) ->
  NoDup (names w) ->
  let first := run w (ensure_bucket_exists lib c bucket_name) in
  let second := run (st_world first.2) (ensure_bucket_exists lib c bucket_name) in
  first.1 = Ok tt /\
  second.1 = Ok tt /\
  st_calls first.2 =
    (Call_list_buckets c, None) ::
    (if bool_decide (bucket_name ∈ names w) then []
     else [(Call_create_bucket c bucket_name, None)]) /\
  st_calls second.2 = [(Call_list_buckets c, None)] /\
  st_world second.2 = st_world first.2 /\
  List.length (List.filter (String.eqb bucket_name) (names (st_world second.2))) = 1.
Proof.
  intros Hlist Hcreate Hnodup.
  assert (Hrun : forall w0,
    let out := run w0 (ensure_bucket_exists lib c bucket_name) in
    if bool_decide (bucket_name ∈ names w0)
    then out.1 = Ok tt /\ st_calls out.2 = [(Call_list_buckets c, None)] /\
         st_world out.2 = w0
    else out.1 = Ok tt /\
         st_calls out.2 = [(Call_list_buckets c, None);
                           (Call_create_bucket c bucket_name, None)] /\
         names (st_world out.2) ≡ₚ bucket_name :: names w0).
  { intros w0. destruct (Hlist w0) as (response & Hresp & Hnames).
    unfold listed_names in Hnames.
    destruct (dict_lookup "Buckets" response) as [[| | | |items|]|] eqn:Hb; try done.
    unfold_facade. rewrite Hresp; cbn. unfold dict_get. rewrite Hb; cbn.
    rewrite (any_bucket_named_listed _ _ _ Hnames); cbn.
    case_bool_decide as Hin; cbn; [done|].
    destruct (Hcreate w0 Hin) as (w1 & -> & Hperm); cbn. done. }
  intros first second.
  pose proof (Hrun w) as Hfirst. fold first in Hfirst. cbn zeta in Hfirst.
  assert (Hin1 : bucket_name ∈ names (st_world first.2) /\
                 NoDup (names (st_world first.2))).
  { destruct (bool_decide (bucket_name ∈ names w)) eqn:Hdec.
    - destruct Hfirst as (_ & _ & ->). by apply bool_decide_eq_true in Hdec.
    - destruct Hfirst as (_ & _ & Hperm). apply bool_decide_eq_false in Hdec.
      rewrite Hperm. split; [apply list_elem_of_here|]. by apply NoDup_cons. }
  destruct Hin1 as [Hin1 Hnodup1].
  pose proof (Hrun (st_world first.2)) as Hsecond. fold second in Hsecond.
  cbn zeta in Hsecond. rewrite bool_decide_eq_true_2 in Hsecond by done.
  destruct Hsecond as (Hs1 & Hs2 & Hs3).
  split_and!; try done.
  - by destruct (bool_decide (bucket_name ∈ names w)); destruct Hfirst as (? & ? & ?).
  - by destruct (bool_decide (bucket_name ∈ names w)); destruct Hfirst as (? & ? & ?).
  - rewrite Hs3. by apply count_one_of_NoDup.
Qed.

Lemma reference_listing_faithful (c : S3Client Reference.handles)
    (w : World Reference.handles) :
  exists response,
    list_buckets Reference.lib c w = (Ok response, w) /\
    listed_names response = Some (Reference.buckets w).
Proof.
  eexists. split; [reflexivity|]. unfold listed_names. cbn.
  induction (Reference.buckets w) as [|n ns IH]; [done|].
  cbn. cbn in IH. by rewrite IH.
Qed.

Lemma reference_creates_absent (c : S3Client Reference.handles)
    (name : string) (w : World Reference.handles) :
  Reference.valid_bucket_name name = true ->
  name ∉ Reference.buckets w ->
  exists w1, create_bucket Reference.lib c name w = (Ok tt, w1) /\
             Reference.buckets w1 ≡ₚ name :: Reference.buckets w.
Proof.
  intros Hvalid Habsent. cbn. unfold Reference.ref_create_bucket.
  rewrite Hvalid. cbn. rewrite (bool_decide_eq_false_2 _ Habsent).
  eexists. split; [reflexivity|]. cbn.
  symmetry. apply Permutation_cons_append.
Qed.

Lemma ensure_bucket_exists_idempotent_witness :
  let first := run Reference.empty_world
                 (ensure_bucket_exists Reference.lib scenario_client "lake") in
  let second := run (st_world first.2)
                  (ensure_bucket_exists Reference.lib scenario_client "lake") in
  first.1 = Ok tt /\
  second.1 = Ok tt /\
  st_calls first.2 =
    (Call_list_buckets scenario_client, None) ::
    (if bool_decide ("lake" ∈ Reference.buckets Reference.empty_world) then []
     else [(Call_create_bucket scenario_client "lake", None)]) /\
  st_calls second.2 = [(Call_list_buckets scenario_client, None)] /\
  st_world second.2 = st_world first.2 /\
  List.length (List.filter (String.eqb "lake")
                 (Reference.buckets (st_world second.2))) = 1.
Proof.
  apply (ensure_bucket_exists_idempotent Reference.lib Reference.buckets
           scenario_client "lake" Reference.empty_world).
  - intros w0. apply reference_listing_faithful.
  - intros w0. apply reference_creates_absent. reflexivity.
  - apply NoDup_nil_2.
Defined.

(** C10: a listing response with no "Buckets" entry reads as an empty
    listing: no [KeyError] is raised, and the call that follows the listing
    is [create_bucket] for the name, whose outcome is the outcome of the
    operation. *)
Theorem missing_buckets_key_means_create {H : Handles} (lib : Library H)
    (w w1 : World H) (c : S3Client H) (bucket_name : string) (response : pydict) :
  list_buckets lib c w = (Ok response, w1) ->
  dict_lookup "Buckets" response = None ->
  let out := run w (ensure_bucket_exists lib c bucket_name) in
  let created := create_bucket lib c bucket_name w1 in
  st_calls out.2 =
    [(Call_list_buckets c, None);
     (Call_create_bucket c bucket_name, failure_of created.1)] /\
  out.1 = created.1 /\
  st_world out.2 = created.2.
Proof.
  intros Hlist Hmissing out created. subst out created. unfold_facade.
  rewrite Hlist; cbn. unfold dict_get. rewrite Hmissing; cbn.
  destruct (create_bucket lib c bucket_name w1) as [[[]|e] w2]; cbn; [done|].
  destruct (isinstance_any e ["Exception"]); done.
Qed.

Lemma missing_buckets_key_means_create_witness :
  let out := run Reference.empty_world
               (ensure_bucket_exists Reference.terse_lib scenario_client "lake") in
  st_calls out.2 =
    [(Call_list_buckets scenario_client, None);
     (Call_create_bucket scenario_client "lake", None)] /\
  out.1 = Ok tt /\
  st_world out.2 = (Reference.mk_world ∅ ["lake"] : World Reference.handles).
Proof.
  apply (missing_buckets_key_means_create Reference.terse_lib Reference.empty_world
           Reference.empty_world scenario_client "lake"
           [("ResponseMetadata", PyDict [("HTTPStatusCode", PyInt 200)])]);
    reflexivity.
Defined.

(** * Further properties *)

(** ** All operations *)

(** The [except] tests met on a path decide the error records. *)
Ltac settle_outcome :=
  rewrite ?isinstance_any_two in *;
  repeat match goal with
         | E : _ || _ = false |- _ => apply orb_false_elim in E as [? ?]
         | E : _ || _ = true |- _ => apply orb_true_iff in E as [?|?]
         end;
  try congruence;
  try (match goal with
       | E : isinstance_any (ValueError _) _ = false |- _ =>
           vm_compute in E; discriminate E
       end);
  repeat match goal with
         | E : _ = _ |- _ => rewrite E; clear E
         end;
  first [ reflexivity
        | unfold logged_once, error_records; cbn; message_context ].

(** X1: an operation that returns leaves no error record; one that raises,
    whether the error comes from a library or from the facade itself,
    leaves exactly one error record ending with the error's text when the
    error is of a class its [except] clauses name, and none otherwise. *)
Theorem error_record_iff_caught_failure {H : Handles} (lib : Library H)
    (w : World H) (op : operation H) :
  let out := run w (perform lib op) in
  match out.1 with
  | Ok _ => error_records (st_log out.2) = []
  | Raise e =>
      if isinstance_any e (logged_classes op)
      then logged_once e (st_log out.2)
      else error_records (st_log out.2) = []
  end.
Proof.
  destruct op; unfold logged_classes; unfold_facade; repeat inner_case.
  all: settle_outcome.
Qed.

Lemma only_last_fails_spec {H : Handles} (trace pre post : list (call H * option exn))
    (c : call H) (e : exn) :
  only_last_fails trace = true ->
  trace = pre ++ (c, Some e) :: post ->
  post = [].
Proof.
  revert trace. induction pre as [|[c0 f0] pre IH]; intros trace Hok ->.
  - cbn in Hok. by destruct post.
  - cbn [app] in Hok. cbn [only_last_fails] in Hok.
    destruct (pre ++ (c, Some e) :: post) as [|x rest] eqn:Hrest.
    { by destruct pre. }
    destruct f0; [done|]. eapply IH; [exact Hok|done].
Qed.

Lemma trace_only_last_fails {H : Handles} (lib : Library H) (w : World H)
    (op : operation H) :
  only_last_fails (st_calls (run w (perform lib op)).2) = true.
Proof.
  destruct op; unfold_facade; repeat inner_case; reflexivity.
Qed.

(** X2: no operation calls a library again after a call has failed: a
    failed call is the last entry of the trace (no retry, no fallback). *)
Theorem no_call_after_a_failure {H : Handles} (lib : Library H) (w : World H)
    (op : operation H) (pre post : list (call H * option exn)) (c : call H)
    (e : exn) :
  st_calls (run w (perform lib op)).2 = pre ++ (c, Some e) :: post ->
  post = [].
Proof.
  intros Htrace.
  eapply only_last_fails_spec; [apply trace_only_last_fails | exact Htrace].
Qed.

Lemma no_call_after_a_failure_witness :
  ([] : list (call Reference.handles * option exn)) = [].
Proof.
  apply (no_call_after_a_failure Reference.lib Reference.empty_world
           (OpRead "lake/missing" None false) [] []
           (Call_DeltaTable "lake/missing" None None)
           (Reference.TableNotFoundError "no log files at lake/missing")).
  reflexivity.
Defined.

(** X3: every library call that takes a location is given the location
    and the storage options the operation was given, unchanged. *)
Theorem calls_use_given_location {H : Handles} (lib : Library H) (w : World H)
    (op : operation H) (c : call H) (failure : option exn)
    (location : string * storage_options) :
  (c, failure) ∈ st_calls (run w (perform lib op)).2 ->
  call_location c = Some location ->
  op_location op = Some location.
Proof.
  destruct op; unfold_facade; repeat inner_case.
  all: intros Hc; in_trace Hc; cbn; congruence.
Qed.

Lemma calls_use_given_location_witness :
  op_location (H := Reference.handles)
    (OpUpsert scenario_changes "lake/people" "id" (Some [("key", "value")]))
  = Some ("lake/people", Some [("key", "value")]).
Proof.
  apply (calls_use_given_location Reference.lib scenario_world
           (OpUpsert scenario_changes "lake/people" "id" (Some [("key", "value")]))
           (Call_write_delta scenario_changes "lake/people" "merge"
              (equality_on "id") (Some [("key", "value")]))
           None).
  - apply list_elem_of_here.
  - reflexivity.
Defined.

(** X4: the existence check, the read, the metadata read and connect call
    no entry point that writes: no table write, no merge, no bucket
    creation. *)
Theorem read_operations_never_write {H : Handles} (lib : Library H) (w : World H)
    (op : operation H) (c : call H) (failure : option exn) :
  reads_only op = true ->
  (c, failure) ∈ st_calls (run w (perform lib op)).2 ->
  is_write_entry c = false.
Proof.
  intros Hop. destruct op; try discriminate Hop; clear Hop.
  all: unfold_facade; repeat inner_case.
  all: intros Hc; in_trace Hc; reflexivity.
Qed.

Lemma read_operations_never_write_witness :
  is_write_entry (H := Reference.handles)
    (Call_to_pyarrow_table scenario_handle None None) = false.
Proof.
  apply (read_operations_never_write Reference.lib scenario_world
           (OpRead "lake/people" None true)
           (Call_to_pyarrow_table scenario_handle None None) None).
  - reflexivity.
  - apply list_elem_of_further, list_elem_of_here.
Defined.

(** ** Upsert, for every library *)

(** X5: [execute] is only ever called on the builder that [write_delta]
    returned for the equality predicate and that went through update-all,
    insert-all and delete-unmatched, in this order; a builder missing a
    clause is never executed. *)
Theorem execute_only_on_full_merge {H : Handles} (lib : Library H) (w : World H)
    (df : polars_df) (path id_column : string) (so : storage_options)
    (m : TableMerger H) (failure : option exn) :
  (Call_execute m, failure) ∈
    st_calls (run w (upsert_delta_table lib df path id_column so)).2 ->
  exists (w0 : World H) (m0 m1 m2 : TableMerger H),
    write_delta_merge lib df path (equality_on id_column) so w = (Ok m0, w0) /\
    when_matched_update_all lib m0 = Ok m1 /\
    when_not_matched_insert_all lib m1 = Ok m2 /\
    when_not_matched_by_source_delete lib m2 = Ok m /\
    failure = failure_of (execute lib m w0).1.
Proof.
  unfold equality_on. rewrite <- upsert_predicate_text.
  unfold_facade.
  destruct (write_delta_merge _ _ _ _ _ _) as [[m0|e] w0] eqn:H0; cbn.
  2:{ destruct (isinstance_any e _); cbn; intros Hc; in_trace Hc. }
  destruct (when_matched_update_all lib m0) as [m1|e] eqn:H1; cbn.
  2:{ destruct (isinstance_any e _); cbn; intros Hc; in_trace Hc. }
  destruct (when_not_matched_insert_all lib m1) as [m2|e] eqn:H2; cbn.
  2:{ destruct (isinstance_any e _); cbn; intros Hc; in_trace Hc. }
  destruct (when_not_matched_by_source_delete lib m2) as [m3|e] eqn:H3; cbn.
  2:{ destruct (isinstance_any e _); cbn; intros Hc; in_trace Hc. }
  destruct (execute lib m3 w0) as [[[]|e] w1] eqn:H4; cbn.
  2:{ destruct (isinstance_any e _); cbn; intros Hc; in_trace Hc;
      exists w0, m0, m1, m2; by rewrite H4. }
  intros Hc; in_trace Hc. exists w0, m0, m1, m2. by rewrite H4.
Qed.

Lemma execute_only_on_full_merge_witness :
  exists (w0 : World Reference.handles) (m0 m1 m2 : TableMerger Reference.handles),
    write_delta_merge Reference.lib scenario_changes "lake/people"
      (equality_on "id") None scenario_world = (Ok m0, w0) /\
    when_matched_update_all Reference.lib m0 = Ok m1 /\
    when_not_matched_insert_all Reference.lib m1 = Ok m2 /\
    when_not_matched_by_source_delete Reference.lib m2 =
      Ok (Reference.mk_table_merger scenario_changes "lake/people"
            (equality_on "id") true true true) /\
    None = failure_of
             (execute Reference.lib
                (Reference.mk_table_merger scenario_changes "lake/people"
                   (equality_on "id") true true true) w0).1.
Proof.
  apply (execute_only_on_full_merge Reference.lib scenario_world scenario_changes
           "lake/people" "id" None
           (Reference.mk_table_merger scenario_changes "lake/people"
              (equality_on "id") true true true : TableMerger Reference.handles)
           None).
  do 4 apply list_elem_of_further. apply list_elem_of_here.
Defined.

(** ** Writing, for every library *)

(** X6: when the conversion of the dataframe fails, the write raises that
    error, [write_deltalake] is not called and the world is untouched. *)
Theorem conversion_failure_writes_nothing {H : Handles} (lib : Library H)
    (w : World H) (df : polars_df) (path : string) (so : storage_options)
    (partition_by : option (list string)) (mode : string) (e : exn) :
  to_arrow lib df = Raise e ->
  let out := run w (write_table_to_deltalake lib (PolarsDataFrame df) path so
                      partition_by mode) in
  out.1 = Raise e /\
  st_calls out.2 = [(Call_to_arrow df, Some e)] /\
  st_world out.2 = w.
Proof.
  intros Hconv. unfold_facade. rewrite Hconv. cbn.
  destruct (isinstance_any e ["ValueError"]); cbn; [done|].
  destruct (isinstance_any e ["Exception"]); done.
Qed.

Lemma conversion_failure_writes_nothing_witness :
  let e := mk_exn "ArrowInvalid" ["Exception"; "BaseException"] "cannot convert" in
  let out := run Reference.empty_world
               (write_table_to_deltalake (broken_conversion_lib e)
                  (PolarsDataFrame scenario_changes) "lake/people" None None
                  "overwrite") in
  out.1 = Raise e /\
  st_calls out.2 = [(Call_to_arrow scenario_changes, Some e)] /\
  st_world out.2 = Reference.empty_world.
Proof.
  intros e.
  apply (conversion_failure_writes_nothing (broken_conversion_lib e)
           Reference.empty_world scenario_changes "lake/people" None None
           "overwrite" e).
  reflexivity.
Defined.

(** X7: a [ValueError] that [write_deltalake] itself raises on a valid
    table is caught by the clause meant for the type check: it is logged
    as "Invalid input table: ...", without the path, and re-raised. *)
Theorem library_value_error_logged_as_invalid_input {H : Handles}
    (lib : Library H) (w w1 : World H) (t : arrow_table) (path : string)
    (so : storage_options) (partition_by : option (list string)) (mode : string)
    (e : exn) :
  write_deltalake lib path t mode so partition_by w = (Raise e, w1) ->
  isinstance e "ValueError" = true ->
  let out := run w (write_table_to_deltalake lib (ArrowTable t) path so
                      partition_by mode) in
  out.1 = Raise e /\
  error_records (st_log out.2) =
    [mk_log ERROR ("Invalid input table: " +:+ exn_text e)].
Proof.
  intros Hwrite Hclass. unfold_facade. rewrite Hwrite. cbn.
  replace (isinstance_any e ["ValueError"]) with true; [done|].
  unfold isinstance_any. cbn. by rewrite Hclass.
Qed.

Lemma library_value_error_logged_as_invalid_input_witness :
  let e := ValueError "Invalid argument" in
  let out := run Reference.empty_world
               (write_table_to_deltalake (broken_write_lib e)
                  (ArrowTable scenario_target) "lake/people" None None
                  "overwrite") in
  out.1 = Raise e /\
  error_records (st_log out.2) =
    [mk_log ERROR ("Invalid input table: " +:+ exn_text e)].
Proof.
  intros e.
  apply (library_value_error_logged_as_invalid_input (broken_write_lib e)
           Reference.empty_world Reference.empty_world scenario_target
           "lake/people" None None "overwrite" e);
    reflexivity.
Defined.

(** ** Ensure-bucket-exists, for every library *)

(** X8: a "Buckets" entry that cannot be iterated (None, a number, a
    boolean) is not read as an empty listing: the iteration error is
    raised and [create_bucket] is not called. *)
Theorem unlistable_buckets_value_raises {H : Handles} (lib : Library H)
    (w w1 : World H) (c : S3Client H) (bucket_name : string) (response : pydict)
    (v : pyval) (e : exn) :
  list_buckets lib c w = (Ok response, w1) ->
  dict_lookup "Buckets" response = Some v ->
  py_iter v = Raise e ->
  let out := run w (ensure_bucket_exists lib c bucket_name) in
  out.1 = Raise e /\
  st_calls out.2 = [(Call_list_buckets c, None)] /\
  st_world out.2 = w1.
Proof.
  intros Hlist Hv Hiter. unfold_facade. rewrite Hlist; cbn.
  unfold dict_get. rewrite Hv, Hiter; cbn.
  destruct (isinstance_any e ["Exception"]); done.
Qed.

Lemma unlistable_buckets_value_raises_witness :
  let out := run Reference.empty_world
               (ensure_bucket_exists (listing_lib [("Buckets", PyNone)])
                  scenario_client "lake") in
  out.1 = Raise (TypeError "'NoneType' object is not iterable") /\
  st_calls out.2 = [(Call_list_buckets scenario_client, None)] /\
  st_world out.2 = Reference.empty_world.
Proof.
  apply (unlistable_buckets_value_raises (listing_lib [("Buckets", PyNone)])
           Reference.empty_world Reference.empty_world scenario_client "lake"
           [("Buckets", PyNone)] PyNone
           (TypeError "'NoneType' object is not iterable"));
    reflexivity.
Defined.

Lemma any_bucket_named_app (bucket_name : string) (before rest : list pyval) :
  any_bucket_named bucket_name before = Ok false ->
  any_bucket_named bucket_name (before ++ rest) = any_bucket_named bucket_name rest.
Proof.
  induction before as [|b before IH]; [done|]. cbn.
  destruct (py_getitem b "Name") as [name|e]; [|done].
  destruct (py_eq_str name bucket_name); [done|]. exact IH.
Qed.

(** X9: a listed entry that cannot be subscripted with "Name" (an entry
    without the key, or not a mapping), met before any entry of the wanted
    name, makes the operation raise that error; [create_bucket] is not
    called. *)
Theorem entry_without_name_raises {H : Handles} (lib : Library H)
    (w w1 : World H) (c : S3Client H) (bucket_name : string) (response : pydict)
    (before after : list pyval) (entry : pyval) (e : exn) :
  list_buckets lib c w = (Ok response, w1) ->
  dict_lookup "Buckets" response = Some (PyList (before ++ entry :: after)) ->
  any_bucket_named bucket_name before = Ok false ->
  py_getitem entry "Name" = Raise e ->
  let out := run w (ensure_bucket_exists lib c bucket_name) in
  out.1 = Raise e /\
  st_calls out.2 = [(Call_list_buckets c, None)] /\
  st_world out.2 = w1.
Proof.
  intros Hlist Hv Hbefore Hentry. unfold_facade. rewrite Hlist; cbn.
  unfold dict_get. rewrite Hv; cbn.
  rewrite (any_bucket_named_app _ _ _ Hbefore). cbn. rewrite Hentry. cbn.
  destruct (isinstance_any e ["Exception"]); done.
Qed.

Lemma entry_without_name_raises_witness :
  let response :=
    [("Buckets", PyList ([PyDict [("Name", PyStr "logs")]] ++
                         PyDict [("CreationDate", PyStr "2024-01-01")] ::
                         [PyDict [("Name", PyStr "lake")]]))] in
  let out := run Reference.empty_world
               (ensure_bucket_exists (listing_lib response) scenario_client "lake") in
  out.1 = Raise (KeyError "Name") /\
  st_calls out.2 = [(Call_list_buckets scenario_client, None)] /\
  st_world out.2 = Reference.empty_world.
Proof.
  intros response.
  apply (entry_without_name_raises (listing_lib response)
           Reference.empty_world Reference.empty_world scenario_client "lake"
           response [PyDict [("Name", PyStr "logs")]]
           [PyDict [("Name", PyStr "lake")]]
           (PyDict [("CreationDate", PyStr "2024-01-01")]) (KeyError "Name"));
    reflexivity.
Defined.

(** X10: the scan stops at the first entry of the wanted name: whatever
    follows it in the listing, even an entry that could not be
    subscripted, the operation returns without an error and without
    calling [create_bucket]. *)
Theorem listed_bucket_stops_the_scan {H : Handles} (lib : Library H)
    (w w1 : World H) (c : S3Client H) (bucket_name : string) (response : pydict)
    (before after : list pyval) (entry : pyval) :
  list_buckets lib c w = (Ok response, w1) ->
  dict_lookup "Buckets" response = Some (PyList (before ++ entry :: after)) ->
  any_bucket_named bucket_name before = Ok false ->
  py_getitem entry "Name" = Ok (PyStr bucket_name) ->
  let out := run w (ensure_bucket_exists lib c bucket_name) in
  out.1 = Ok tt /\
  st_calls out.2 = [(Call_list_buckets c, None)] /\
  st_world out.2 = w1 /\
  st_log out.2 = [mk_log INFO ("Bucket '" +:+ bucket_name +:+ "' already exists.")].
Proof.
  intros Hlist Hv Hbefore Hentry. unfold_facade. rewrite Hlist; cbn.
  unfold dict_get. rewrite Hv; cbn.
  rewrite (any_bucket_named_app _ _ _ Hbefore). cbn. rewrite Hentry. cbn.
  rewrite String.eqb_refl. done.
Qed.

Lemma listed_bucket_stops_the_scan_witness :
  let response :=
    [("Buckets", PyList ([PyDict [("Name", PyStr "logs")]] ++
                         PyDict [("Name", PyStr "lake")] :: [PyInt 5; PyNone]))] in
  let out := run Reference.empty_world
               (ensure_bucket_exists (listing_lib response) scenario_client "lake") in
  out.1 = Ok tt /\
  st_calls out.2 = [(Call_list_buckets scenario_client, None)] /\
  st_world out.2 = Reference.empty_world /\
  st_log out.2 = [mk_log INFO ("Bucket '" +:+ "lake" +:+ "' already exists.")].
Proof.
  intros response.
  apply (listed_bucket_stops_the_scan (listing_lib response)
           Reference.empty_world Reference.empty_world scenario_client "lake"
           response [PyDict [("Name", PyStr "logs")]] [PyInt 5; PyNone]
           (PyDict [("Name", PyStr "lake")]));
    reflexivity.
Defined.

(** X11: whatever the library answers, ensure-bucket-exists lists once
    and then creates at most once, the named bucket through the given
    client, and only after a listing that succeeded. *)
Theorem ensure_calls_list_then_create {H : Handles} (lib : Library H) (w : World H)
    (c : S3Client H) (bucket_name : string) :
  let trace := st_calls (run w (ensure_bucket_exists lib c bucket_name)).2 in
  (exists failure, trace = [(Call_list_buckets c, failure)]) \/
  (exists failure, trace = [(Call_list_buckets c, None);
                            (Call_create_bucket c bucket_name, failure)]).
Proof.
  unfold_facade. repeat inner_case; eauto.
Qed.

(** ** Connect, for every library *)

(** X12: every record connect emits is one of its two fixed messages or
    the error record made of a fixed prefix and the text of the error it
    re-raises.  The facade formats none of its arguments into a message;
    an argument can reach the log only inside the text of the library's
    error, as the region does above. *)
Theorem connect_records_fixed_or_error_text {H : Handles} (lib : Library H) (w : World H)
    (endpoint_url access_key secret_key region_name : string) (r : log_record) :
  let out := run w (connect_s3 lib endpoint_url access_key secret_key region_name) in
  r ∈ st_log out.2 ->
  r = mk_log INFO "Initializing S3 client..." \/
  r = mk_log INFO "Successfully connected to S3." \/
  exists e, out.1 = Raise e /\
            r = mk_log ERROR ("Failed to connect to S3: " +:+ exn_text e).
Proof.
  unfold_facade. repeat inner_case; intros Hr; in_trace Hr; eauto.
Qed.

Lemma connect_records_fixed_or_error_text_witness :
  let out := run Reference.empty_world
               (connect_s3 Reference.lib "http://localhost:9000" "minio" "minio123"
                  "us-east-1") in
  mk_log INFO "Successfully connected to S3." =
    mk_log INFO "Initializing S3 client..." \/
  mk_log INFO "Successfully connected to S3." =
    mk_log INFO "Successfully connected to S3." \/
  exists e, out.1 = Raise e /\
            mk_log INFO "Successfully connected to S3." =
              mk_log ERROR ("Failed to connect to S3: " +:+ exn_text e).
Proof.
  apply (connect_records_fixed_or_error_text Reference.lib Reference.empty_world
           "http://localhost:9000" "minio" "minio123" "us-east-1"
           (mk_log INFO "Successfully connected to S3.")).
  apply list_elem_of_further, list_elem_of_here.
Defined.

(** ** Composing the operations, on the in-memory store *)

Lemma commit_appends (w : World Reference.handles) (path : string)
    (parts : list string) (t : arrow_table) :
  exists l history,
    Reference.tables (Reference.commit path parts t w) !! path = Some l /\
    Reference.commits l = history ++ [t].
Proof.
  unfold Reference.commit. cbn. rewrite lookup_insert_eq.
  destruct (Reference.tables w !! path) as [l|]; cbn.
  - by exists (Reference.mk_delta_log (Reference.partition_columns l)
                 (Reference.commits l ++ [t])), (Reference.commits l).
  - by exists (Reference.mk_delta_log parts [t]), [].
Qed.

Lemma reference_read (w : World Reference.handles) (path : string)
    (so : storage_options) (to_polars : bool) (l : Reference.delta_log)
    (history : list arrow_table) (t : arrow_table) :
  Reference.tables w !! path = Some l ->
  Reference.commits l = history ++ [t] ->
  (run w (read_table_in_deltalake Reference.lib path so to_polars)).1 =
    Ok (if to_polars then AsPolars (mk_df (at_columns t) (at_rows t))
        else AsArrow (mk_arrow (at_columns t) (at_rows t))).
Proof.
  intros Htable Hcommits. unfold_facade. cbn.
  unfold Reference.ref_DeltaTable. rewrite Htable, Hcommits.
  rewrite length_app, Nat.add_1_r.
  replace (Z.of_nat (S (List.length history)) - 1)%Z
    with (Z.of_nat (List.length history)) by lia.
  destruct (Z.ltb_spec (Z.of_nat (List.length history)) 0) as [Hneg|_]; [lia|].
  rewrite Nat2Z.id, list_lookup_middle by done. by destruct to_polars.
Qed.

Lemma reference_check (w : World Reference.handles) (path : string)
    (so : storage_options) :
  (run w (check_if_deltatable Reference.lib path so)).1 =
    Ok (bool_decide (is_Some (Reference.tables w !! path))).
Proof.
  unfold_facade. cbn. unfold Reference.ref_is_deltatable.
  by destruct (bool_decide (is_Some (Reference.tables w !! path))).
Qed.

(** *** Upsert *)

(** The store after the upsert, and what a read of the location returns
    then. *)
Lemma reference_upsert_then_read (w : World Reference.handles) (df : polars_df)
    (path id_column : string) (so so' : storage_options)
    (l : Reference.delta_log) (history : list arrow_table) (target : arrow_table)
    (types : list dtype) :
  Reference.tables w !! path = Some l ->
  Reference.commits l = history ++ [target] ->
  Reference.is_identifier id_column = true ->
  id_column ∈ at_columns target ->
  df_columns df = at_columns target ->
  NoDup (at_columns target) ->
  List.length types = List.length (at_columns target) ->
  rows_fit types (df_rows df) = true ->
  NoDup (id_cells (at_columns target) id_column (df_rows df)) ->
  let rows := flat_map (matching_changes (at_columns target) id_column (df_rows df))
                       (at_rows target)
              ++ unmatched_changes (at_columns target) id_column (df_rows df)
                   (at_rows target) in
  let after := world_after w (upsert_delta_table Reference.lib df path id_column so) in
  (exists l1 history1,
     Reference.tables after !! path = Some l1 /\
     Reference.commits l1 = history1 ++ [mk_arrow (at_columns target) rows]) /\
  (run after (read_table_in_deltalake Reference.lib path so' false)).1
    = Ok (AsArrow (mk_arrow (at_columns target) rows)).
Proof.
  intros Htable Hcommits Hid Hcol Hschema Hcolumns Htypes Hfit Hdistinct rows after.
  destruct (reference_upsert w df path id_column so l history target types)
    as (s & Hrun & _ & Hworld); try done.
  assert (Hafter : after = Reference.commit path []
                             (mk_arrow (at_columns target) rows) w).
  { subst after. unfold world_after. by rewrite Hrun. }
  destruct (commit_appends w path [] (mk_arrow (at_columns target) rows))
    as (l1 & history1 & Hl1 & Hc1).
  rewrite <- Hafter in Hl1. split; [by exists l1, history1|].
  by rewrite (reference_read _ path so' false l1 history1 _ Hl1 Hc1).
Qed.

Lemma filter_complement {A : Type} (p : A -> bool) (l : list A) :
  List.filter p l ++ List.filter (fun x => negb (p x)) l ≡ₚ l.
Proof.
  induction l as [|x l IH]; [done|]. cbn. destruct (p x); cbn.
  - by rewrite IH.
  - by rewrite <- Permutation_middle, IH.
Qed.

Lemma filter_disjoint_or {A : Type} (p q : A -> bool) (l : list A) :
  (forall x, x ∈ l -> p x = true -> q x = true -> False) ->
  List.filter (fun x => p x || q x) l ≡ₚ List.filter p l ++ List.filter q l.
Proof.
  induction l as [|x l IH]; intros Hdisj; [done|].
  assert (IH' : List.filter (fun x => p x || q x) l ≡ₚ
                List.filter p l ++ List.filter q l).
  { apply IH. intros y Hy. apply Hdisj. by apply list_elem_of_further. }
  cbn. destruct (p x) eqn:Hp, (q x) eqn:Hq; cbn.
  - exfalso. eapply Hdisj; [apply list_elem_of_here|done|done].
  - by rewrite IH'.
  - by rewrite <- Permutation_middle, IH'.
  - done.
Qed.

(** With distinct target ids a change-set row matches at most one target
    row, so the rows the join yields for the target rows are the matched
    change-set rows, each once. *)
Lemma joined_rows (columns : list string) (id_column : string)
    (source target : list row) :
  NoDup (id_cells columns id_column target) ->
  flat_map (matching_changes columns id_column source) target
  ≡ₚ List.filter (fun s => existsb (id_match columns id_column s) target) source.
Proof.
  unfold matching_changes.
  induction target as [|t target IH]; intros Hnodup.
  - cbn. induction source as [|s source IHs]; [done|]. by cbn.
  - cbn in Hnodup. apply NoDup_cons in Hnodup as [Hfresh Hnodup].
    cbn [flat_map existsb]. rewrite (IH Hnodup).
    symmetry. apply filter_disjoint_or.
    intros s _ Hst Hrest. apply existsb_exists in Hrest as (t' & Ht' & Hst').
    apply Hfresh. unfold id_match in *.
    apply sql_eq_eq in Hst. apply sql_eq_eq in Hst'.
    unfold id_cells. rewrite <- Hst, Hst'.
    apply list_elem_of_In, in_map. done.
Qed.

Lemma replaced_is_the_change_set (columns : list string) (id_column : string)
    (source target : list row) :
  NoDup (id_cells columns id_column target) ->
  flat_map (matching_changes columns id_column source) target
  ++ unmatched_changes columns id_column source target
  ≡ₚ source.
Proof.
  intros Hnodup. rewrite (joined_rows _ _ _ _ Hnodup).
  apply filter_complement.
Qed.

(** X17: under the preconditions of the merge, and when the ids of the
    target are distinct as well, the table read after the upsert holds
    exactly the rows of the change set, each once, in some order: the
    upsert replaces the table by the change set. *)
Theorem upsert_leaves_exactly_the_change_set (w : World Reference.handles)
    (df : polars_df) (path id_column : string) (so so' : storage_options)
    (l : Reference.delta_log) (history : list arrow_table) (target : arrow_table)
    (types : list dtype) :
  Reference.tables w !! path = Some l ->
  Reference.commits l = history ++ [target] ->
  Reference.is_identifier id_column = true ->
  id_column ∈ at_columns target ->
  NoDup (at_columns target) ->
  df_columns df = at_columns target ->
  List.length types = List.length (at_columns target) ->
  rows_fit types (at_rows target) = true ->
  rows_fit types (df_rows df) = true ->
  NoDup (id_cells (at_columns target) id_column (df_rows df)) ->
  NoDup (id_cells (at_columns target) id_column (at_rows target)) ->
  exists rows,
    (run (world_after w (upsert_delta_table Reference.lib df path id_column so))
       (read_table_in_deltalake Reference.lib path so' false)).1
    = Ok (AsArrow (mk_arrow (at_columns target) rows)) /\
    rows ≡ₚ df_rows df.
Proof.
  intros Htable Hcommits Hid Hcol Hcolumns Hschema Htypes _ Hfit Hsource Htarget.
  destruct (reference_upsert_then_read w df path id_column so so' l history target
              types) as [_ Hread]; try done.
  eexists. split; [exact Hread|]. by apply replaced_is_the_change_set.
Qed.

Lemma upsert_leaves_exactly_the_change_set_witness :
  exists rows,
    (run (world_after scenario_world
            (upsert_delta_table Reference.lib scenario_changes "lake/people" "id" None))
       (read_table_in_deltalake Reference.lib "lake/people" None false)).1
    = Ok (AsArrow (mk_arrow (at_columns scenario_target) rows)) /\
    rows ≡ₚ df_rows scenario_changes.
Proof.
  apply (upsert_leaves_exactly_the_change_set scenario_world scenario_changes
           "lake/people" "id" None None
           (Reference.mk_delta_log [] [scenario_target]) [] scenario_target
           [Int64; Utf8]);
    first [reflexivity | apply list_elem_of_here | distinct_cells].
Defined.

Lemma empty_change_set_leaves_nothing (columns : list string)
    (id_column : string) (target : list row) :
  flat_map (matching_changes columns id_column []) target
  ++ unmatched_changes columns id_column [] target = [].
Proof.
  unfold unmatched_changes, matching_changes. cbn. rewrite app_nil_r.
  induction target as [|t target IH]; [done|]. cbn. exact IH.
Qed.

(** X18: under the preconditions of the merge, an upsert with a change
    set that has the columns of the table and no row leaves the table
    empty: every target row is unmatched, hence deleted. *)
Theorem upsert_with_empty_change_set_empties_the_table
    (w : World Reference.handles) (df : polars_df) (path id_column : string)
    (so so' : storage_options) (l : Reference.delta_log)
    (history : list arrow_table) (target : arrow_table) (types : list dtype) :
  Reference.tables w !! path = Some l ->
  Reference.commits l = history ++ [target] ->
  Reference.is_identifier id_column = true ->
  id_column ∈ at_columns target ->
  NoDup (at_columns target) ->
  df_columns df = at_columns target ->
  List.length types = List.length (at_columns target) ->
  rows_fit types (at_rows target) = true ->
  df_rows df = [] ->
  (run (world_after w (upsert_delta_table Reference.lib df path id_column so))
     (read_table_in_deltalake Reference.lib path so' false)).1
  = Ok (AsArrow (mk_arrow (at_columns target) [])).
Proof.
  intros Htable Hcommits Hid Hcol Hcolumns Hschema Htypes _ Hempty.
  destruct (reference_upsert_then_read w df path id_column so so' l history target
              types) as [_ Hread]; try done.
  - by rewrite Hempty.
  - rewrite Hempty. apply NoDup_nil_2.
  - by rewrite Hread, Hempty, empty_change_set_leaves_nothing.
Qed.

Lemma upsert_with_empty_change_set_empties_the_table_witness :
  (run (world_after scenario_world
          (upsert_delta_table Reference.lib (mk_df ["id"; "name"] [])
             "lake/people" "id" None))
     (read_table_in_deltalake Reference.lib "lake/people" None false)).1
  = Ok (AsArrow (mk_arrow (at_columns scenario_target) [])).
Proof.
  apply (upsert_with_empty_change_set_empties_the_table scenario_world
           (mk_df ["id"; "name"] []) "lake/people" "id" None None
           (Reference.mk_delta_log [] [scenario_target]) [] scenario_target
           [Int64; Utf8]);
    first [reflexivity | apply list_elem_of_here | distinct_cells].
Defined.

(** X19: under the preconditions of the merge, and when the ids of the
    target are distinct as well, upserting the same change set a second
    time changes nothing but the order of the rows: both reads hold the
    rows of the change set. *)
Theorem upsert_twice_is_upsert_once (w : World Reference.handles)
    (df : polars_df) (path id_column : string) (so so' : storage_options)
    (l : Reference.delta_log) (history : list arrow_table) (target : arrow_table)
    (types : list dtype) :
  Reference.tables w !! path = Some l ->
  Reference.commits l = history ++ [target] ->
  Reference.is_identifier id_column = true ->
  id_column ∈ at_columns target ->
  NoDup (at_columns target) ->
  df_columns df = at_columns target ->
  List.length types = List.length (at_columns target) ->
  rows_fit types (at_rows target) = true ->
  rows_fit types (df_rows df) = true ->
  NoDup (id_cells (at_columns target) id_column (df_rows df)) ->
  NoDup (id_cells (at_columns target) id_column (at_rows target)) ->
  let once := world_after w (upsert_delta_table Reference.lib df path id_column so) in
  let twice := world_after once (upsert_delta_table Reference.lib df path id_column so) in
  exists rows1 rows2,
    (run once (read_table_in_deltalake Reference.lib path so' false)).1
      = Ok (AsArrow (mk_arrow (at_columns target) rows1)) /\
    (run twice (read_table_in_deltalake Reference.lib path so' false)).1
      = Ok (AsArrow (mk_arrow (at_columns target) rows2)) /\
    rows1 ≡ₚ df_rows df /\
    rows2 ≡ₚ rows1.
Proof.
  intros Htable Hcommits Hid Hcol Hcolumns Hschema Htypes _ Hfit Hsource Htarget
    once twice.
  destruct (reference_upsert_then_read w df path id_column so so' l history target
              types) as [(l1 & history1 & Hl1 & Hc1) Hread1]; try done.
  fold once in Hl1, Hread1.
  set (rows1 := flat_map (matching_changes (at_columns target) id_column (df_rows df))
                         (at_rows target)
                ++ unmatched_changes (at_columns target) id_column (df_rows df)
                     (at_rows target)) in *.
  assert (Hrows1 : rows1 ≡ₚ df_rows df) by by apply replaced_is_the_change_set.
  destruct (reference_upsert_then_read once df path id_column so so' l1 history1
              (mk_arrow (at_columns target) rows1) types)
    as [_ Hread2]; try done.
  fold twice in Hread2. cbn [at_columns at_rows] in Hread2.
  eexists rows1, _. split_and!; [exact Hread1|exact Hread2|done|].
  transitivity (df_rows df); [|by symmetry].
  apply replaced_is_the_change_set.
  unfold id_cells in *. by rewrite Hrows1.
Qed.

Lemma upsert_twice_is_upsert_once_witness :
  let once := world_after scenario_world
                (upsert_delta_table Reference.lib scenario_changes
                   "lake/people" "id" None) in
  let twice := world_after once
                 (upsert_delta_table Reference.lib scenario_changes
                    "lake/people" "id" None) in
  exists rows1 rows2,
    (run once (read_table_in_deltalake Reference.lib "lake/people" None false)).1
      = Ok (AsArrow (mk_arrow (at_columns scenario_target) rows1)) /\
    (run twice (read_table_in_deltalake Reference.lib "lake/people" None false)).1
      = Ok (AsArrow (mk_arrow (at_columns scenario_target) rows2)) /\
    rows1 ≡ₚ df_rows scenario_changes /\
    rows2 ≡ₚ rows1.
Proof.
  apply (upsert_twice_is_upsert_once scenario_world scenario_changes
           "lake/people" "id" None None
           (Reference.mk_delta_log [] [scenario_target]) [] scenario_target
           [Int64; Utf8]);
    first [reflexivity | apply list_elem_of_here | distinct_cells].
Defined.

(** X20: an upsert on a location that holds no table raises the table's
    absence, creates nothing and changes nothing: the existence check of
    the location is still false afterwards. *)
Theorem upsert_on_missing_table_creates_nothing (w : World Reference.handles)
    (df : polars_df) (path id_column : string) (so so' : storage_options) :
  Reference.tables w !! path = None ->
  let out := run w (upsert_delta_table Reference.lib df path id_column so) in
  out.1 = Raise (Reference.TableNotFoundError ("no log files at " +:+ path)) /\
  st_world out.2 = w /\
  (run (st_world out.2) (check_if_deltatable Reference.lib path so')).1 = Ok false.
Proof.
  intros Habsent.
  assert (Hrun : (run w (upsert_delta_table Reference.lib df path id_column so)).1
                 = Raise (Reference.TableNotFoundError ("no log files at " +:+ path)) /\
                 st_world (run w (upsert_delta_table Reference.lib df path id_column so)).2
                 = w).
  { unfold_facade. cbn. unfold Reference.ref_write_delta_merge. rewrite Habsent. done. }
  destruct Hrun as [Hout Hworld]. cbn zeta. rewrite Hout, Hworld.
  split_and!; try done.
  rewrite reference_check, Habsent. rewrite bool_decide_eq_false_2; [done|].
  by intros [? ?].
Qed.

Lemma upsert_on_missing_table_creates_nothing_witness :
  let out := run Reference.empty_world
               (upsert_delta_table Reference.lib scenario_changes
                  "lake/people" "id" None) in
  out.1 = Raise (Reference.TableNotFoundError
                   ("no log files at " +:+ "lake/people")) /\
  st_world out.2 = Reference.empty_world /\
  (run (st_world out.2)
     (check_if_deltatable Reference.lib "lake/people" None)).1 = Ok false.
Proof.
  apply (upsert_on_missing_table_creates_nothing Reference.empty_world
           scenario_changes "lake/people" "id" None None).
  reflexivity.
Defined.

(** *** Absence *)

(** X23: on a location that holds no table the three inspecting
    operations differ: the existence check returns false without an error
    record, while the read and the metadata read raise the library's
    table-not-found error, each after one error record. *)
Theorem absence_is_false_or_an_error (w : World Reference.handles)
    (path : string) (so : storage_options) (to_polars : bool) :
  Reference.tables w !! path = None ->
  let missing := Reference.TableNotFoundError ("no log files at " +:+ path) in
  let checked := run w (check_if_deltatable Reference.lib path so) in
  let read := run w (read_table_in_deltalake Reference.lib path so to_polars) in
  let described := run w (read_deltalake_metadata Reference.lib path so) in
  (checked.1 = Ok false /\ error_records (st_log checked.2) = []) /\
  (read.1 = Raise missing /\ logged_once missing (st_log read.2)) /\
  (described.1 = Raise missing /\ logged_once missing (st_log described.2)).
Proof.
  intros Habsent missing checked read described.
  subst checked read described. unfold_facade. cbn.
  unfold Reference.ref_is_deltatable, Reference.ref_DeltaTable. rewrite Habsent.
  rewrite bool_decide_eq_false_2 by (by intros [? ?]). cbn.
  split_and!; try done.
  - exists ("Error reading Delta table from path '" +:+ path +:+ "': ").
    by rewrite !append_assoc.
  - by exists "Error reading Delta table metadata: ".
Qed.

Lemma absence_is_false_or_an_error_witness :
  let missing := Reference.TableNotFoundError ("no log files at " +:+ "lake/none") in
  let checked := run Reference.empty_world
                   (check_if_deltatable Reference.lib "lake/none" None) in
  let read := run Reference.empty_world
                (read_table_in_deltalake Reference.lib "lake/none" None true) in
  let described := run Reference.empty_world
                     (read_deltalake_metadata Reference.lib "lake/none" None) in
  (checked.1 = Ok false /\ error_records (st_log checked.2) = []) /\
  (read.1 = Raise missing /\ logged_once missing (st_log read.2)) /\
  (described.1 = Raise missing /\ logged_once missing (st_log described.2)).
Proof.
  apply (absence_is_false_or_an_error Reference.empty_world "lake/none" None true).
  reflexivity.
Defined.
